(** * Synthetic OHLCV generator ([tools/gen_synthetic.py])

    A shallow embedding of [generate_ohlcv] and the properties of the bars
    it produces.

    Conventions of the embedding:
    - Python floats are idealised as exact rationals ([Q]); [round(x, 2)],
      [int(x)], [abs], [max] and [min] are the exact operations on them.
      The idealisation has no underflow, overflow or rounding of products,
      so the properties proved of prices are properties of sign, order and
      equality of fields, which binary64 arithmetic shares, not of the
      cent-level value of a price after many multiplications.
    - [random.gauss(mu, sigma)] returns [mu + z * sigma], where [z] is the
      next standard normal variate of the module-level random source.  The
      source is a stream of variates [zs : nat -> Q] together with the
      number of variates consumed so far; "for any seed" is "for any
      stream".
    - [datetime] values are proleptic Gregorian ordinals, with the range
      check of [datetime.__add__] written out. *)

From Stdlib Require Import ZArith QArith Qround Qabs Qminmax Lia Lqa List String Ascii Bool.
From Stdlib Require DecimalString.
Import ListNotations.

Local Open Scope Z_scope.

(** ** Numeric primitives *)

(** [int(x)] on a float: truncation toward zero. *)
Definition py_int (x : Q) : Z := Z.quot (Qnum x) (Zpos (Qden x)).

(** Nearest integer, ties to the even neighbour. *)
Definition round_half_even (x : Q) : Z :=
  let f := Qfloor x in
  match Qcompare (x - inject_Z f) (1 # 2) with
  | Lt => f
  | Gt => f + 1
  | Eq => if Z.even f then f else f + 1
  end.

(** [round(x, 2)]: the nearest multiple of 1/100, in lowest terms. *)
Definition round2 (x : Q) : Q := Qred (Qmake (round_half_even (x * 100)) 100).

(** ** Exceptions

    The only exception the generator can raise is the [OverflowError] of the
    date arithmetic. *)

Inductive exn : Type := OverflowError.

Inductive result (A : Type) : Type :=
| Ok (a : A)
| Raise (e : exn).

Arguments Ok {A} a.
Arguments Raise {A} e.

(** ** Calendar ([datetime], [timedelta], [strftime]) *)

Module PyDate.

Definition MAXORDINAL : Z := 3652059.
Definition MAX_DELTA_DAYS : Z := 999999999.

Definition is_leap (year : Z) : bool :=
  (year mod 4 =? 0) && (negb (year mod 100 =? 0) || (year mod 400 =? 0)).

Definition days_before_year (year : Z) : Z :=
  let y := year - 1 in y * 365 + y / 4 - y / 100 + y / 400.

Definition DAYS_IN_MONTH : list Z :=
  [-1; 31; 28; 31; 30; 31; 30; 31; 31; 30; 31; 30; 31].

Definition DAYS_BEFORE_MONTH : list Z :=
  [-1; 0; 31; 59; 90; 120; 151; 181; 212; 243; 273; 304; 334].

Definition b2z (b : bool) : Z := if b then 1 else 0.

Definition days_before_month (year month : Z) : Z :=
  nth (Z.to_nat month) DAYS_BEFORE_MONTH 0 + b2z ((2 <? month) && is_leap year).

Definition ymd2ord (year month day : Z) : Z :=
  days_before_year year + days_before_month year month + day.

Definition DI400Y : Z := Eval cbv in days_before_year 401.
Definition DI100Y : Z := Eval cbv in days_before_year 101.
Definition DI4Y : Z := Eval cbv in days_before_year 5.

(** [_ord2ymd]: ordinal to (year, month, day). *)
Definition ord2ymd (ordinal : Z) : Z * Z * Z :=
  let n := ordinal - 1 in
  let n400 := n / DI400Y in
  let n := n mod DI400Y in
  let year := n400 * 400 + 1 in
  let n100 := n / DI100Y in
  let n := n mod DI100Y in
  let n4 := n / DI4Y in
  let n := n mod DI4Y in
  let n1 := n / 365 in
  let n := n mod 365 in
  let year := year + n100 * 100 + n4 * 4 + n1 in
  if (n1 =? 4) || (n100 =? 4) then (year - 1, 12, 31)
  else
    let leapyear := (n1 =? 3) && (negb (n4 =? 24) || (n100 =? 3)) in
    let month := Z.shiftr (n + 50) 5 in
    let preceding :=
      nth (Z.to_nat month) DAYS_BEFORE_MONTH 0 + b2z ((2 <? month) && leapyear) in
    if n <? preceding then
      let month := month - 1 in
      let preceding :=
        preceding
        - (nth (Z.to_nat month) DAYS_IN_MONTH 0 + b2z ((month =? 2) && leapyear)) in
      (year, month, n - preceding + 1)
    else (year, month, n - preceding + 1).

Definition digit (d : Z) : ascii := ascii_of_nat (48 + Z.to_nat (d mod 10)).

Definition pad2 (n : Z) : string :=
  String (digit (n / 10)) (String (digit n) EmptyString).

Definition pad4 (n : Z) : string :=
  String (digit (n / 1000)) (String (digit (n / 100)) (pad2 n)).

(** [strftime("%Y-%m-%d")] of the date with the given ordinal. *)
Definition strftime_ymd (ordinal : Z) : string :=
  let '(y, m, d) := ord2ymd ordinal in
  (pad4 y ++ "-" ++ pad2 m ++ "-" ++ pad2 d)%string.

(** [timedelta(days=d)]. *)
Definition timedelta (days : Z) : result Z :=
  if Z.abs days <=? MAX_DELTA_DAYS then Ok days else Raise OverflowError.

(** [date + delta] on ordinals, as [datetime.__add__] checks it. *)
Definition add (date delta : Z) : result Z :=
  let r := date + delta in
  if (0 <? r) && (r <=? MAXORDINAL) then Ok r else Raise OverflowError.

End PyDate.

(** ** The random source and the generator monad *)

(** A computation reads the stream of variates from the position it is
    given, and returns its value with the new position, or raises. *)
Definition M (A : Type) : Type := nat -> result (A * nat).

Definition ret {A} (a : A) : M A := fun s => Ok (a, s).

Definition bind {A B} (m : M A) (k : A -> M B) : M B :=
  fun s => match m s with
           | Ok (a, s') => k a s'
           | Raise e => Raise e
           end.

Definition lift {A} (r : result A) : M A :=
  fun s => match r with
           | Ok a => Ok (a, s)
           | Raise e => Raise e
           end.

Notation "x <- m ;; k" := (bind m (fun x => k))
  (at level 61, m at next level, right associativity).

(** [for i in range(i, i + count): st = body(i, st)]. *)
Fixpoint for_range {St : Type} (body : nat -> St -> M St) (i count : nat) (st : St)
  : M St :=
  match count with
  | O => ret st
  | S c => st' <- body i st ;; for_range body (S i) c st'
  end.

(** ** Bars *)

Record bar : Type := mkBar {
  Date : string;
  Open : Q;
  High : Q;
  Low : Q;
  Close : Q;
  Adj_Close : Q;
  Volume : Z
}.

Definition start_date : Z := PyDate.ymd2ord 2020 1 1.

Section Generator.

Variable zs : nat -> Q.

(** [random.gauss(mu, sigma)]. *)
Definition gauss (mu sigma : Q) : M Q :=
  fun s => Ok ((mu + zs s * sigma)%Q, S s).

Variables volatility trend : Q.

(** One pass through the body of the [for] loop; the loop state is
    [(data, current_price)]. *)
Definition iteration (i : nat) (st : list bar * Q) : M (list bar * Q) :=
  let '(data, current_price) := st in
  delta <- lift (PyDate.timedelta (Z.of_nat i)) ;;
  date <- lift (PyDate.add start_date delta) ;;
  let date_str := PyDate.strftime_ymd date in
  daily_return <- gauss trend volatility ;;
  gap <- gauss 0 (volatility * 0.2) ;;
  let open_price := (current_price * (1 + gap))%Q in
  let close_price := (open_price * (1 + daily_return))%Q in
  noise <- gauss 0 (volatility * 0.5) ;;
  let intraday_range := Qabs noise in
  let high_price := (Qmax open_price close_price * (1 + intraday_range))%Q in
  let low_price := (Qmin open_price close_price * (1 - intraday_range))%Q in
  v <- gauss 1000000 200000 ;;
  let volume := py_int v in
  ret (data ++ [ {| Date := date_str;
                    Open := round2 open_price;
                    High := round2 high_price;
                    Low := round2 low_price;
                    Close := round2 close_price;
                    Adj_Close := round2 close_price;
                    Volume := Z.max volume 100000 |} ],
       close_price).

End Generator.

(** The loop of [generate_ohlcv], with its final state exposed. *)
Definition run_loop (zs : nat -> Q) (n_rows : Z) (start_price volatility trend : Q)
  : M (list bar * Q) :=
  for_range (iteration zs volatility trend) 0 (Z.to_nat n_rows) ([], start_price).

Definition generate_ohlcv (zs : nat -> Q) (n_rows : Z)
  (start_price volatility trend : Q) : M (list bar) :=
  st <- run_loop zs n_rows start_price volatility trend ;;
  ret (fst st).

(** The largest [n_rows] whose last date is still a [datetime]: the days
    from 2020-01-01 to 9999-12-31, both included. *)
Definition MAX_ROWS : Z := Eval cbv in PyDate.MAXORDINAL - start_date + 1.

(** ** The price path in closed form

    Iteration [k] of a run started at position [s] of the stream draws the
    variates [s + 4k .. s + 4k + 3], in the order return, gap, range,
    volume. *)

Section Path.

Variable zs : nat -> Q.
Variables start_price volatility trend : Q.
Variable s : nat.

Definition daily_return_at (k : nat) : Q :=
  (trend + zs (s + 4 * k) * volatility)%Q.

Definition gap_at (k : nat) : Q :=
  (0 + zs (s + 4 * k + 1) * (volatility * 0.2))%Q.

Definition range_at (k : nat) : Q :=
  Qabs (0 + zs (s + 4 * k + 2) * (volatility * 0.5))%Q.

Definition volume_at (k : nat) : Z :=
  py_int (1000000 + zs (s + 4 * k + 3) * 200000)%Q.

(** [current_price] on entry to iteration [k] (unrounded). *)
Fixpoint price_before (k : nat) : Q :=
  match k with
  | O => start_price
  | S j => (price_before j * (1 + gap_at j) * (1 + daily_return_at j))%Q
  end.

Definition open_at (k : nat) : Q := (price_before k * (1 + gap_at k))%Q.
Definition close_at (k : nat) : Q := (open_at k * (1 + daily_return_at k))%Q.
Definition high_at (k : nat) : Q :=
  (Qmax (open_at k) (close_at k) * (1 + range_at k))%Q.
Definition low_at (k : nat) : Q :=
  (Qmin (open_at k) (close_at k) * (1 - range_at k))%Q.

Definition bar_at (k : nat) : bar :=
  {| Date := PyDate.strftime_ymd (start_date + Z.of_nat k);
     Open := round2 (open_at k);
     High := round2 (high_at k);
     Low := round2 (low_at k);
     Close := round2 (close_at k);
     Adj_Close := round2 (close_at k);
     Volume := Z.max (volume_at k) 100000 |}.

End Path.

(** The generator as the specification words it for the carried state:
    [current_price] becomes the rounded close.  Used only to compare with
    [iteration]. *)
Definition iteration_rounded_carry (zs : nat -> Q) (volatility trend : Q)
  (i : nat) (st : list bar * Q) : M (list bar * Q) :=
  st' <- iteration zs volatility trend i st ;;
  ret (fst st', round2 (snd st')).

(** ** Calendar dates

    A date is a triple (year, month, day). *)

(** [_days_in_month(year, month)]. *)
Definition days_in_month (year month : Z) : Z :=
  if (month =? 2) && PyDate.is_leap year then 29
  else nth (Z.to_nat month) PyDate.DAYS_IN_MONTH 0.

Definition valid_date (date : Z * Z * Z) : Prop :=
  let '(y, m, d) := date in
  1 <= y /\ 1 <= m <= 12 /\ 1 <= d <= days_in_month y m.

Definition date_ordinal (date : Z * Z * Z) : Z :=
  let '(y, m, d) := date in PyDate.ymd2ord y m d.

(** The day after a date. *)
Definition next_day (date : Z * Z * Z) : Z * Z * Z :=
  let '(y, m, d) := date in
  if d <? days_in_month y m then (y, m, d + 1)
  else if m <? 12 then (y, m + 1, 1)
  else (y + 1, 1, 1).

(** Chronological order. *)
Definition date_lt (a b : Z * Z * Z) : Prop :=
  let '(y, m, d) := a in
  let '(y', m', d') := b in
  y < y' \/ (y = y' /\ (m < m' \/ (m = m' /\ d < d'))).

(** The text [YYYY-MM-DD] of a date. *)
Definition iso_date (date : Z * Z * Z) : string :=
  let '(y, m, d) := date in
  (PyDate.pad4 y ++ "-" ++ PyDate.pad2 m ++ "-" ++ PyDate.pad2 d)%string.

(** The text is that of the date, a real date with a four-digit year. *)
Definition denotes (text : string) (date : Z * Z * Z) : Prop :=
  valid_date date
  /\ (let '(y, _, _) := date in y <= 9999)
  /\ text = iso_date date.

(** The month and day that [_ord2ymd] derives from the day [n] of a year,
    counted from 0, given whether the year is a leap year. *)
Definition month_day (leapyear : bool) (n : Z) : Z * Z :=
  let month := Z.shiftr (n + 50) 5 in
  let preceding :=
    nth (Z.to_nat month) PyDate.DAYS_BEFORE_MONTH 0
    + PyDate.b2z ((2 <? month) && leapyear) in
  if n <? preceding then
    let month := month - 1 in
    let preceding :=
      preceding
      - (nth (Z.to_nat month) PyDate.DAYS_IN_MONTH 0
         + PyDate.b2z ((month =? 2) && leapyear)) in
    (month, n - preceding + 1)
  else (month, n - preceding + 1).

Definition month_length (leapyear : bool) (month : Z) : Z :=
  nth (Z.to_nat month) PyDate.DAYS_IN_MONTH 0
  + PyDate.b2z ((month =? 2) && leapyear).

Definition month_offset (leapyear : bool) (month : Z) : Z :=
  nth (Z.to_nat month) PyDate.DAYS_BEFORE_MONTH 0
  + PyDate.b2z ((2 <? month) && leapyear).

(** Decision procedure behind the day-of-year case analysis. *)
Definition month_day_ok (leapyear : bool) (k : nat) : bool :=
  let n := Z.of_nat k in
  let '(m, d) := month_day leapyear n in
  (1 <=? m) && (m <=? 12) && (1 <=? d) && (d <=? month_length leapyear m)
  && (month_offset leapyear m + d =? n + 1).

(** ** Writing the file ([write_csv]) and the script

    The csv writer is a sink of rows: the content of a file is the list of
    rows handed to the writer, each a list of cells, before they are turned
    into text.  The file system is a parameter of the model: whether
    [open(filename, 'w')] succeeds, and whether what is written reaches the
    file when it is flushed and closed. *)

Record file_system : Type := mkFs {
  opens : string -> bool;
  stores : string -> bool
}.

Inductive value : Type :=
| VStr (text : string)
| VFloat (x : Q)
| VInt (n : Z).

(** A dict with string keys, as its items in insertion order. *)
Definition pydict : Type := list (string * value).

Fixpoint dict_get (d : pydict) (key : string) : option value :=
  match d with
  | [] => None
  | (k, v) :: rest => if String.eqb k key then Some v else dict_get rest key
  end.

(** The dict that [generate_ohlcv] appends for a bar. *)
Definition to_dict (b : bar) : pydict :=
  [ ("Date", VStr (Date b)); ("Open", VFloat (Open b)); ("High", VFloat (High b));
    ("Low", VFloat (Low b)); ("Close", VFloat (Close b));
    ("Adj Close", VFloat (Adj_Close b)); ("Volume", VInt (Volume b)) ]%string.

Definition fieldnames : list string :=
  [ "Date"; "Open"; "High"; "Low"; "Close"; "Adj Close"; "Volume" ]%string.

Definition is_fieldname (key : string) : bool := existsb (String.eqb key) fieldnames.

(** What [write_csv] can raise: [OSError] from the file ([FileNotFoundError]
    and the like are its subclasses), [ValueError] from the [DictWriter]. *)
Inductive csv_exn : Type := OSError | ValueError.

(** [rowdict.get(key, restval)] with [restval = '']. *)
Definition cell_of (rowdict : pydict) (key : string) : value :=
  match dict_get rowdict key with
  | Some v => v
  | None => VStr ""
  end.

(** [rowdict.keys() - fieldnames] is not empty. *)
Definition has_wrong_fields (rowdict : pydict) : bool :=
  existsb (fun key => negb (is_fieldname key)) (map fst rowdict).

(** [DictWriter._dict_to_list], with [extrasaction = 'raise']; [None] is
    its [ValueError]. *)
Definition dict_to_list (rowdict : pydict) : option (list value) :=
  if has_wrong_fields rowdict then None
  else Some (map (cell_of rowdict) fieldnames).

(** [DictWriter.writerows]: rows are written one by one until a dict is
    refused. *)
Fixpoint writerows (rowdicts : list pydict) (file : list (list value))
  : list (list value) * option csv_exn :=
  match rowdicts with
  | [] => (file, None)
  | rowdict :: rest =>
      match dict_to_list rowdict with
      | None => (file, Some ValueError)
      | Some row => writerows rest (file ++ [row])
      end
  end.

(** What a call leaves in the file it was given. *)
Inductive file_state : Type :=
| Untouched
| Unspecified
| Rows (content : list (list value)).

Record written : Type := mkWritten {
  file : file_state;
  printed : list string;
  raised : option csv_exn
}.

Definition str_of_nat (n : nat) : string :=
  DecimalString.NilZero.string_of_uint (Nat.to_uint n).

Definition write_csv (fs : file_system) (data : list pydict) (filename : string)
  : written :=
  if negb (opens fs filename) then
    {| file := Untouched; printed := []; raised := Some OSError |}
  else if negb (stores fs filename) then
    {| file := Unspecified; printed := []; raised := Some OSError |}
  else
    let header := map VStr fieldnames in
    match writerows data [header] with
    | (content, Some e) =>
        {| file := Rows content; printed := []; raised := Some e |}
    | (content, None) =>
        {| file := Rows content;
           printed := [ ("Generated " ++ str_of_nat (List.length data)
                         ++ " rows -> " ++ filename)%string ];
           raised := None |}
    end.

(** The parsed command line. *)
Record cli_args : Type := mkArgs {
  rows : Z;
  output : string;
  arg_start_price : Q;
  arg_volatility : Q;
  arg_trend : Q
}.

Definition default_args : cli_args :=
  {| rows := 10000;
     output := "../data/synthetic.csv";
     arg_start_price := 100.0;
     arg_volatility := 0.02;
     arg_trend := 0.0001 |}.

(** The script ends in the generator's exception, with [write_csv] never
    called, or in whatever [write_csv] does. *)
Inductive script_result : Type :=
| Crashed (e : exn)
| Called (w : written).

(** The script after argument parsing: generate, then write. *)
Definition script (fs : file_system) (zs : nat -> Q) (args : cli_args) (s : nat)
  : script_result :=
  match generate_ohlcv zs (rows args) (arg_start_price args) (arg_volatility args)
          (arg_trend args) s with
  | Raise e => Crashed e
  | Ok (data, _) => Called (write_csv fs (map to_dict data) (output args))
  end.

(** The cells of the row written for a bar. *)
Definition row_of_bar (b : bar) : list value :=
  [ VStr (Date b); VFloat (Open b); VFloat (High b); VFloat (Low b);
    VFloat (Close b); VFloat (Adj_Close b); VInt (Volume b) ].

(** Every key of the dict is a column. *)
Definition known_keys (d : pydict) : Prop :=
  forall key, In key (map fst d) -> In key fieldnames.

(** File systems used in the examples. *)
Definition fs_good : file_system :=
  {| opens := fun _ => true; stores := fun _ => true |}.

Definition fs_no_data_dir : file_system :=
  {| opens := fun name => negb (String.prefix "../data/" name);
     stores := fun _ => true |}.

(** ** Inputs used in the examples below *)

Definition zs_zero : nat -> Q := fun _ => 0%Q.

(** Bar 0 draws a gap of [-2] standard deviations and a range of [0.2]. *)
Definition zs_crash : nat -> Q :=
  fun k => match k with
           | 1%nat => (-2)%Q
           | 2%nat => 0.2%Q
           | _ => 0%Q
           end.

(** Bar 0 draws a gap of [-3] standard deviations. *)
Definition zs_negative : nat -> Q :=
  fun k => match k with 1%nat => (-3)%Q | _ => 0%Q end.

(** Bar 1 draws a gap of [5] standard deviations. *)
Definition zs_gap : nat -> Q :=
  fun k => match k with 5%nat => 5%Q | _ => 0%Q end.

(** Bar 0 draws nothing unusual; bar 1 draws a gap of [-2] standard
    deviations and a range of [0.2]. *)
Definition zs_late_crash : nat -> Q :=
  fun k => match k with
           | 5%nat => (-2)%Q
           | 6%nat => 0.2%Q
           | _ => 0%Q
           end.

(** Two streams that agree on their first eight variates only. *)
Definition zs_a : nat -> Q := fun k => if (k <? 8)%nat then inject_Z (Z.of_nat k) else 1%Q.
Definition zs_b : nat -> Q := fun k => if (k <? 8)%nat then inject_Z (Z.of_nat k) else 2%Q.

(** * Properties *)

(** ** Sanity checks of the primitives *)

Example ord_2020_01_01 : start_date = 737425.
Proof. reflexivity. Qed.

Example ord_9999_12_31 : PyDate.ymd2ord 9999 12 31 = PyDate.MAXORDINAL.
Proof. reflexivity. Qed.

Example fmt_first_day : PyDate.strftime_ymd start_date = "2020-01-01"%string.
Proof. reflexivity. Qed.

Example fmt_leap_day : PyDate.strftime_ymd (start_date + 59) = "2020-02-29"%string.
Proof. reflexivity. Qed.

Example fmt_new_year : PyDate.strftime_ymd (start_date + 366) = "2021-01-01"%string.
Proof. reflexivity. Qed.

Example add_last_day : PyDate.add start_date 2914634 = Ok PyDate.MAXORDINAL.
Proof. reflexivity. Qed.

Example add_past_last_day : PyDate.add start_date 2914635 = Raise OverflowError.
Proof. reflexivity. Qed.

Example round2_tie_to_even : round2 (1 # 8) = (3 # 25)%Q /\ (3 # 25 == 0.12)%Q.
Proof. split; reflexivity. Qed.

Example round2_up : round2 (1006 # 1000) = 1.01%Q.
Proof. reflexivity. Qed.

Example round2_negative : round2 (- (1006 # 1000)) = (-1.01)%Q.
Proof. reflexivity. Qed.

Example py_int_truncates : py_int (- (7 # 2)) = -3 /\ py_int (7 # 2) = 3.
Proof. split; reflexivity. Qed.

(** ** Rounding *)

Lemma round_half_even_comp (x y : Q) :
  (x == y)%Q -> round_half_even x = round_half_even y.
Proof.
  intros E. unfold round_half_even; cbv zeta.
  rewrite (Qfloor_comp _ _ E).
  assert (C : ((x - inject_Z (Qfloor y))%Q ?= 1 # 2)%Q
              = ((y - inject_Z (Qfloor y))%Q ?= 1 # 2)%Q)
    by (rewrite E; reflexivity).
  rewrite C. reflexivity.
Qed.

Lemma round_half_even_bounds (x : Q) :
  Qfloor x <= round_half_even x <= Qfloor x + 1.
Proof.
  unfold round_half_even; cbv zeta.
  destruct (Qcompare _ _); [destruct (Z.even _)| |]; lia.
Qed.

Lemma round_half_even_mono (x y : Q) :
  (x <= y)%Q -> round_half_even x <= round_half_even y.
Proof.
  intros L.
  pose proof (Qfloor_resp_le _ _ L) as F.
  destruct (Z.eq_dec (Qfloor x) (Qfloor y)) as [E | N].
  - unfold round_half_even; cbv zeta. rewrite E.
    destruct (Qcompare_spec (x - inject_Z (Qfloor y)) (1 # 2)) as [Hx | Hx | Hx];
      destruct (Qcompare_spec (y - inject_Z (Qfloor y)) (1 # 2)) as [Hy | Hy | Hy];
      try (destruct (Z.even (Qfloor y))); try lia; exfalso; lra.
  - pose proof (round_half_even_bounds x). pose proof (round_half_even_bounds y).
    lia.
Qed.

Lemma round2_comp (x y : Q) : (x == y)%Q -> round2 x = round2 y.
Proof.
  intros E. unfold round2.
  rewrite (round_half_even_comp (x * 100) (y * 100)); [reflexivity |].
  rewrite E; reflexivity.
Qed.

Lemma round2_mono (x y : Q) : (x <= y)%Q -> (round2 x <= round2 y)%Q.
Proof.
  intros L. unfold round2. rewrite !Qred_correct.
  assert (H : round_half_even (x * 100) <= round_half_even (y * 100))
    by (apply round_half_even_mono; lra).
  unfold Qle; simpl. lia.
Qed.

Lemma round2_nonneg (x : Q) : (0 <= x)%Q -> (0 <= round2 x)%Q.
Proof.
  intros L. change 0%Q with (round2 0). apply round2_mono, L.
Qed.

(** ** The loop *)

Lemma for_range_snoc {St : Type} (body : nat -> St -> M St) (c i : nat) (st : St)
  (s : nat) :
  for_range body i (S c) st s
  = (st' <- for_range body i c st ;; body (i + c)%nat st') s.
Proof.
  revert i st s. induction c as [| c IH]; intros i st s.
  - simpl. unfold bind, ret. rewrite Nat.add_0_r.
    destruct (body i st s) as [[a s1] | e]; reflexivity.
  - change (for_range body i (S (S c)) st s)
      with ((st' <- body i st ;; for_range body (S i) (S c) st') s).
    change (for_range body i (S c) st)
      with (st' <- body i st ;; for_range body (S i) c st').
    unfold bind.
    destruct (body i st s) as [[a s1] | e]; [| reflexivity].
    rewrite IH. unfold bind. rewrite Nat.add_succ_r. reflexivity.
Qed.

Section Loop.

Variable zs : nat -> Q.
Variables start_price volatility trend : Q.
Variable s : nat.

Let body := iteration zs volatility trend.
Let nth_bar := bar_at zs start_price volatility trend s.
Let price := price_before zs start_price volatility trend s.

(** One iteration on the state the closed form predicts. *)
Lemma iteration_in_range (k : nat) (data : list bar) :
  Z.of_nat k < MAX_ROWS ->
  body k (data, price k) (s + 4 * k)%nat
  = Ok ((data ++ [nth_bar k], price (S k)), (s + 4 * S k)%nat).
Proof.
  intros Hk. unfold body, iteration, bind, lift, gauss, ret.
  unfold PyDate.timedelta, PyDate.add.
  replace (Z.abs (Z.of_nat k) <=? PyDate.MAX_DELTA_DAYS) with true
    by (symmetry; apply Z.leb_le; unfold PyDate.MAX_DELTA_DAYS, MAX_ROWS in *; lia).
  replace ((0 <? start_date + Z.of_nat k) && (start_date + Z.of_nat k <=? PyDate.MAXORDINAL))
    with true.
  2:{ symmetry; apply andb_true_iff; split; [apply Z.ltb_lt | apply Z.leb_le];
      unfold PyDate.MAXORDINAL, MAX_ROWS in *; change start_date with 737425; lia. }
  replace (S (s + 4 * k)) with (s + 4 * k + 1)%nat by lia.
  replace (S (s + 4 * k + 1)) with (s + 4 * k + 2)%nat by lia.
  replace (S (s + 4 * k + 2)) with (s + 4 * k + 3)%nat by lia.
  replace (S (s + 4 * k + 3)) with (s + 4 * S k)%nat by lia.
  reflexivity.
Qed.

(** The first index whose date is past 9999-12-31 raises, whatever the state. *)
Lemma iteration_overflow (k : nat) (st : list bar * Q) (s0 : nat) :
  MAX_ROWS <= Z.of_nat k -> body k st s0 = Raise OverflowError.
Proof.
  intros Hk. destruct st as [data p].
  unfold body, iteration, bind, lift, PyDate.timedelta, PyDate.add.
  destruct (Z.abs (Z.of_nat k) <=? PyDate.MAX_DELTA_DAYS); [| reflexivity].
  replace (start_date + Z.of_nat k <=? PyDate.MAXORDINAL) with false.
  2:{ symmetry; apply Z.leb_gt.
      unfold PyDate.MAXORDINAL, MAX_ROWS in *; change start_date with 737425; lia. }
  rewrite andb_false_r. reflexivity.
Qed.

Lemma loop_in_range (n : nat) :
  Z.of_nat n <= MAX_ROWS ->
  for_range body 0 n ([], start_price) s
  = Ok ((map nth_bar (seq 0 n), price n), (s + 4 * n)%nat).
Proof.
  induction n as [| n IH]; intros Hn.
  - simpl. unfold ret. rewrite Nat.add_0_r. reflexivity.
  - rewrite for_range_snoc. unfold bind. rewrite IH by lia.
    rewrite seq_S, map_app, !Nat.add_0_l.
    apply iteration_in_range. lia.
Qed.

Lemma loop_overflow (n : nat) :
  MAX_ROWS < Z.of_nat n ->
  for_range body 0 n ([], start_price) s = Raise OverflowError.
Proof.
  induction n as [| n IH]; intros Hn.
  - unfold MAX_ROWS in Hn. lia.
  - rewrite for_range_snoc. unfold bind.
    destruct (Z.eq_dec (Z.of_nat n) MAX_ROWS) as [E | N].
    + rewrite loop_in_range by lia. rewrite Nat.add_0_l.
      apply iteration_overflow. lia.
    + rewrite IH by lia. reflexivity.
Qed.

End Loop.

(** ** The generator in closed form *)

Lemma run_loop_in_range zs n_rows start_price volatility trend s :
  n_rows <= MAX_ROWS ->
  run_loop zs n_rows start_price volatility trend s
  = Ok ((map (bar_at zs start_price volatility trend s) (seq 0 (Z.to_nat n_rows)),
         price_before zs start_price volatility trend s (Z.to_nat n_rows)),
        (s + 4 * Z.to_nat n_rows)%nat).
Proof.
  intros H. unfold run_loop. apply loop_in_range. unfold MAX_ROWS in *. lia.
Qed.

Lemma generate_in_range zs n_rows start_price volatility trend s :
  n_rows <= MAX_ROWS ->
  generate_ohlcv zs n_rows start_price volatility trend s
  = Ok (map (bar_at zs start_price volatility trend s) (seq 0 (Z.to_nat n_rows)),
        (s + 4 * Z.to_nat n_rows)%nat).
Proof.
  intros H. unfold generate_ohlcv, bind.
  rewrite run_loop_in_range by exact H. reflexivity.
Qed.

Lemma generate_overflow zs n_rows start_price volatility trend s :
  MAX_ROWS < n_rows ->
  generate_ohlcv zs n_rows start_price volatility trend s = Raise OverflowError.
Proof.
  intros H. unfold generate_ohlcv, bind, run_loop.
  rewrite loop_overflow; [reflexivity |]. unfold MAX_ROWS in *. lia.
Qed.

Lemma generate_inv zs n_rows start_price volatility trend s data s' :
  generate_ohlcv zs n_rows start_price volatility trend s = Ok (data, s') ->
  n_rows <= MAX_ROWS
  /\ data = map (bar_at zs start_price volatility trend s) (seq 0 (Z.to_nat n_rows))
  /\ s' = (s + 4 * Z.to_nat n_rows)%nat.
Proof.
  intros H. destruct (Z_le_gt_dec n_rows MAX_ROWS) as [L | G].
  - rewrite generate_in_range in H by exact L.
    inversion H; subst. auto.
  - rewrite generate_overflow in H by lia. discriminate.
Qed.

Lemma nth_error_map_seq {A : Type} (f : nat -> A) (n i : nat) (a : A) :
  nth_error (map f (seq 0 n)) i = Some a -> (i < n)%nat /\ a = f i.
Proof.
  intros H.
  assert (L : (i < n)%nat).
  { assert (S : nth_error (map f (seq 0 n)) i <> None) by (rewrite H; discriminate).
    apply nth_error_Some in S. rewrite length_map, length_seq in S. exact S. }
  split; [exact L |].
  rewrite nth_error_map, nth_error_seq in H.
  apply Nat.ltb_lt in L. rewrite L in H. simpl in H. congruence.
Qed.

Lemma nth_error_map_seq_lt {A : Type} (f : nat -> A) (n i : nat) :
  (i < n)%nat -> nth_error (map f (seq 0 n)) i = Some (f i).
Proof.
  intros L. rewrite nth_error_map, nth_error_seq.
  apply Nat.ltb_lt in L. rewrite L. reflexivity.
Qed.

(** Every bar of a successful run is the closed form at its index. *)
Lemma produced_nth zs n_rows start_price volatility trend s data s' k b :
  generate_ohlcv zs n_rows start_price volatility trend s = Ok (data, s') ->
  nth_error data k = Some b ->
  (k < Z.to_nat n_rows)%nat /\ b = bar_at zs start_price volatility trend s k.
Proof.
  intros G N. apply generate_inv in G. destruct G as (_ & -> & _).
  apply nth_error_map_seq in N. exact N.
Qed.

Lemma produced_in zs n_rows start_price volatility trend s data s' b :
  generate_ohlcv zs n_rows start_price volatility trend s = Ok (data, s') ->
  In b data ->
  exists k, (k < Z.to_nat n_rows)%nat /\ b = bar_at zs start_price volatility trend s k.
Proof.
  intros G I. apply In_nth_error in I. destruct I as [k N].
  exists k. eapply produced_nth; eassumption.
Qed.

Example MAX_ROWS_value : MAX_ROWS = 2914635.
Proof. reflexivity. Qed.

Example last_row_date :
  PyDate.strftime_ymd (start_date + (MAX_ROWS - 1)) = "9999-12-31"%string.
Proof. reflexivity. Qed.

(** ** Row count and dates *)

(** C2 fails as stated: a row count past the last representable date makes
    the call raise instead of returning that many bars. *)
Lemma C2_counterexample :
  0 <= 2914636
  /\ generate_ohlcv zs_zero 2914636 100 0 0 0%nat = Raise OverflowError.
Proof.
  split; [lia |]. apply generate_overflow. unfold MAX_ROWS. lia.
Qed.

(** C2 (amended): for every row count [0 <= N <= 2914635] the generator
    returns exactly [N] bars, bar [i] dated [i] days after 2020-01-01 (so
    consecutive bars are one calendar day apart, with no gaps), after
    consuming [4 N] variates; [N = 0] gives the empty sequence. *)
Theorem C2_row_count_and_dates zs n_rows start_price volatility trend s :
  0 <= n_rows <= MAX_ROWS ->
  exists data,
    generate_ohlcv zs n_rows start_price volatility trend s
    = Ok (data, (s + 4 * Z.to_nat n_rows)%nat)
    /\ Z.of_nat (List.length data) = n_rows
    /\ (n_rows = 0 -> data = [])
    /\ forall i, 0 <= i < n_rows ->
         exists b, nth_error data (Z.to_nat i) = Some b
                   /\ Date b = PyDate.strftime_ymd (start_date + i).
Proof.
  intros [H0 Hmax]. eexists. split; [apply generate_in_range, Hmax |].
  split; [rewrite length_map, length_seq; lia |].
  split; [intros ->; reflexivity |].
  intros i Hi. eexists. split.
  - apply nth_error_map_seq_lt. lia.
  - simpl. rewrite Z2Nat.id by lia. reflexivity.
Qed.

Lemma C2_witness :
  exists data,
    generate_ohlcv zs_zero 2 100 0 0 0%nat = Ok (data, 8%nat)
    /\ Z.of_nat (List.length data) = 2
    /\ (2 = 0 -> data = [])
    /\ forall i, 0 <= i < 2 ->
         exists b, nth_error data (Z.to_nat i) = Some b
                   /\ Date b = PyDate.strftime_ymd (start_date + i).
Proof.
  apply (C2_row_count_and_dates zs_zero 2 100 0 0 0%nat).
  unfold MAX_ROWS. lia.
Defined.

(** C10: the start date is fixed.  Whatever the arguments and the stream,
    the first bar produced is dated 2020-01-01 and bar [i] is dated [i] days
    after 2020-01-01. *)
Theorem C10_dates_from_2020 zs n_rows start_price volatility trend s data s' :
  generate_ohlcv zs n_rows start_price volatility trend s = Ok (data, s') ->
  (forall b, nth_error data 0 = Some b -> Date b = "2020-01-01"%string)
  /\ forall i b, nth_error data i = Some b ->
       Date b = PyDate.strftime_ymd (PyDate.ymd2ord 2020 1 1 + Z.of_nat i).
Proof.
  intros G. split.
  - intros b N. destruct (produced_nth _ _ _ _ _ _ _ _ _ _ G N) as [_ ->].
    reflexivity.
  - intros i b N. destruct (produced_nth _ _ _ _ _ _ _ _ _ _ G N) as [_ ->].
    reflexivity.
Qed.

Lemma C10_witness :
  exists data s',
    generate_ohlcv zs_gap 2 (7 # 2) 1 (1 # 10) 0%nat = Ok (data, s')
    /\ (forall b, nth_error data 0 = Some b -> Date b = "2020-01-01"%string)
    /\ forall i b, nth_error data i = Some b ->
         Date b = PyDate.strftime_ymd (PyDate.ymd2ord 2020 1 1 + Z.of_nat i).
Proof.
  eexists. eexists. split; [vm_compute; reflexivity |].
  apply (C10_dates_from_2020 zs_gap 2 (7 # 2) 1 (1 # 10) 0%nat _ 8%nat).
  vm_compute. reflexivity.
Defined.

(** ** Volume and adjusted close *)

(** C7: every produced bar has an integer volume of at least 100000. *)
Theorem C7_volume_floor zs n_rows start_price volatility trend s data s' :
  generate_ohlcv zs n_rows start_price volatility trend s = Ok (data, s') ->
  forall b, In b data -> 100000 <= Volume b /\ 0 < Volume b.
Proof.
  intros G b I. destruct (produced_in _ _ _ _ _ _ _ _ _ G I) as (k & _ & ->).
  simpl. lia.
Qed.

Lemma C7_witness :
  exists data s',
    generate_ohlcv zs_negative 2 100 5 0 0%nat = Ok (data, s')
    /\ Forall (fun b => 100000 <= Volume b /\ 0 < Volume b) data.
Proof.
  eexists. eexists. split; [vm_compute; reflexivity |].
  apply Forall_forall.
  apply (C7_volume_floor zs_negative 2 100 5 0 0%nat _ 8%nat).
  vm_compute. reflexivity.
Defined.

(** C8: every produced bar has [Adj Close] equal to [Close]. *)
Theorem C8_adj_close_is_close zs n_rows start_price volatility trend s data s' :
  generate_ohlcv zs n_rows start_price volatility trend s = Ok (data, s') ->
  forall b, In b data -> Adj_Close b = Close b.
Proof.
  intros G b I. destruct (produced_in _ _ _ _ _ _ _ _ _ G I) as (k & _ & ->).
  reflexivity.
Qed.

Lemma C8_witness :
  exists data s',
    generate_ohlcv zs_crash 2 100 5 (1 # 1000) 0%nat = Ok (data, s')
    /\ Forall (fun b => Adj_Close b = Close b) data.
Proof.
  eexists. eexists. split; [vm_compute; reflexivity |].
  apply Forall_forall.
  apply (C8_adj_close_is_close zs_crash 2 100 5 (1 # 1000) 0%nat _ 8%nat).
  vm_compute. reflexivity.
Defined.

(** ** Price ordering *)

Section Prices.

Variable zs : nat -> Q.
Variables start_price volatility trend : Q.
Variable s : nat.

Let price := price_before zs start_price volatility trend s.
Let gap := gap_at zs volatility s.
Let ret_at := daily_return_at zs volatility trend s.
Let range := range_at zs volatility s.
Let opn := open_at zs start_price volatility trend s.
Let cls := close_at zs start_price volatility trend s.
Let hi := high_at zs start_price volatility trend s.
Let lo := low_at zs start_price volatility trend s.

Lemma range_nonneg k : (0 <= range k)%Q.
Proof. apply Qabs_nonneg. Qed.

Lemma price_nonneg n :
  (0 <= start_price)%Q ->
  (forall k, (k < n)%nat -> (0 <= 1 + gap k)%Q /\ (0 <= 1 + ret_at k)%Q) ->
  (0 <= price n)%Q.
Proof.
  intros H0. induction n as [| n IH]; intros H; [exact H0 |].
  change (0 <= price n * (1 + gap n) * (1 + ret_at n))%Q.
  destruct (H n (Nat.lt_succ_diag_r n)) as [Hg Hr].
  assert (Hp : (0 <= price n)%Q) by (apply IH; intros k Hk; apply H; lia).
  apply Qmult_le_0_compat; [apply Qmult_le_0_compat |]; assumption.
Qed.


(** With non-negative open and close the range factors bound them. *)
Lemma raw_ordering k :
  (0 <= opn k)%Q -> (0 <= cls k)%Q ->
  (lo k <= Qmin (opn k) (cls k))%Q /\ (Qmax (opn k) (cls k) <= hi k)%Q.
Proof.
  intros Ho Hc. pose proof (range_nonneg k) as Hr.
  assert (Hmin : (0 <= Qmin (opn k) (cls k))%Q) by (apply Q.min_glb; assumption).
  assert (Hmax : (0 <= Qmax (opn k) (cls k))%Q)
    by (eapply Qle_trans; [exact Ho | apply Q.le_max_l]).
  pose proof (Qmult_le_0_compat _ _ Hmin Hr) as P1.
  pose proof (Qmult_le_0_compat _ _ Hmax Hr) as P2.
  unfold lo, hi, low_at, high_at. fold opn cls range.
  split; lra.
Qed.

(** Rounding keeps the ordering of the bar built from the raw prices. *)
Lemma rounded_ordering k :
  (lo k <= Qmin (opn k) (cls k))%Q -> (Qmax (opn k) (cls k) <= hi k)%Q ->
  let b := bar_at zs start_price volatility trend s k in
  (Low b <= Qmin (Open b) (Close b))%Q /\ (Qmax (Open b) (Close b) <= High b)%Q.
Proof.
  intros Hl Hh. simpl. fold opn cls hi lo. split.
  - apply Q.min_glb; apply round2_mono; (eapply Qle_trans; [exact Hl |]);
      [apply Q.le_min_l | apply Q.le_min_r].
  - apply Q.max_lub; apply round2_mono; (eapply Qle_trans; [| exact Hh]);
      [apply Q.le_max_l | apply Q.le_max_r].
Qed.

End Prices.

Lemma min_max_chain (o c l h : Q) :
  (l <= Qmin o c)%Q -> (Qmax o c <= h)%Q ->
  (l <= o <= h)%Q /\ (l <= c <= h)%Q /\ ~ (h < l)%Q.
Proof.
  intros Hl Hh.
  pose proof (Q.le_min_l o c). pose proof (Q.le_min_r o c).
  pose proof (Q.le_max_l o c). pose proof (Q.le_max_r o c).
  repeat split; try lra.
Qed.

(** C1 fails as stated: with volatility 5 a gap draw of two standard
    deviations below zero makes open and close negative, and then the range
    factors push high below them and low above them. *)
Lemma C1_counterexample :
  (0 <= 5)%Q
  /\ exists b,
       generate_ohlcv zs_crash 1 100 5 0 0%nat = Ok ([b], 4%nat)
       /\ (High b < Low b)%Q
       /\ (High b < Qmax (Open b) (Close b))%Q
       /\ (Qmin (Open b) (Close b) < Low b)%Q.
Proof.
  split; [discriminate |].
  eexists. split; [vm_compute; reflexivity |].
  repeat split; reflexivity.
Qed.

(** C1 (amended): for every produced bar, when the start price is
    non-negative and every gap and daily-return draw up to and including
    that bar is at least [-1] (so that its unrounded open and close are
    non-negative), the emitted rounded prices satisfy
    [low <= min(open, close)] and [max(open, close) <= high]; in particular
    [high < low] does not occur.  This holds for every volatility, and
    whatever the draws of later bars are. *)
Theorem C1_ordering_on_nonnegative_path
  zs n_rows start_price volatility trend s data s' :
  (0 <= start_price)%Q ->
  generate_ohlcv zs n_rows start_price volatility trend s = Ok (data, s') ->
  forall k b, nth_error data k = Some b ->
    (forall j, (j <= k)%nat ->
       (0 <= 1 + gap_at zs volatility s j)%Q
       /\ (0 <= 1 + daily_return_at zs volatility trend s j)%Q) ->
    (Low b <= Qmin (Open b) (Close b))%Q
    /\ (Qmax (Open b) (Close b) <= High b)%Q
    /\ (Low b <= Open b <= High b)%Q
    /\ (Low b <= Close b <= High b)%Q
    /\ ~ (High b < Low b)%Q.
Proof.
  intros H0 G k b N Hd.
  destruct (produced_nth _ _ _ _ _ _ _ _ _ _ G N) as (_ & ->).
  assert (Hp : (0 <= price_before zs start_price volatility trend s k)%Q)
    by (apply price_nonneg; [exact H0 | intros j Hj; apply Hd; lia]).
  destruct (Hd k (Nat.le_refl k)) as [Hg Hr].
  assert (Ho : (0 <= open_at zs start_price volatility trend s k)%Q)
    by (apply Qmult_le_0_compat; assumption).
  assert (Hc : (0 <= close_at zs start_price volatility trend s k)%Q)
    by (apply Qmult_le_0_compat; assumption).
  destruct (raw_ordering zs start_price volatility trend s k Ho Hc) as [Rl Rh].
  destruct (rounded_ordering zs start_price volatility trend s k Rl Rh) as [Bl Bh].
  split; [exact Bl |]. split; [exact Bh |].
  apply min_max_chain; assumption.
Qed.

(** Bar 0 of a run whose bar 1 draws a gap of [-2]: bar 0 is ordered, bar 1
    is not. *)
Lemma C1_witness :
  exists b0 b1,
    generate_ohlcv zs_late_crash 2 100 5 0 0%nat = Ok ([b0; b1], 8%nat)
    /\ (High b1 < Low b1)%Q
    /\ (Low b0 <= Qmin (Open b0) (Close b0))%Q
    /\ (Qmax (Open b0) (Close b0) <= High b0)%Q
    /\ (Low b0 <= Open b0 <= High b0)%Q
    /\ (Low b0 <= Close b0 <= High b0)%Q
    /\ ~ (High b0 < Low b0)%Q.
Proof.
  do 2 eexists. split; [vm_compute; reflexivity |].
  split; [reflexivity |].
  eapply (C1_ordering_on_nonnegative_path zs_late_crash 2 100 5 0 0%nat)
    with (k := 0%nat).
  - discriminate.
  - vm_compute. reflexivity.
  - reflexivity.
  - intros j Hj. destruct j as [| j]; [split; discriminate | lia].
Defined.

(** ** Positivity *)




(** ** The carried state *)

(** C3 fails as stated: the loop carries the unrounded close.  From
    [start_price = 1.004] bar 0 closes at 1.004 and is emitted as 1.00; the
    carried price is still 1.004, and with a gap of [+1] bar 1 opens at
    2.008, emitted as 2.01, where the rounded close would give 2.00.  A loop
    that carried the rounded close would return different bars. *)
Lemma C3_counterexample :
  exists b0 b1 c,
    generate_ohlcv zs_gap 2 (251 # 250) 1 0 0%nat = Ok ([b0; b1], 8%nat)
    /\ run_loop zs_gap 1 (251 # 250) 1 0 0%nat = Ok (([b0], c), 4%nat)
    /\ Close b0 = 1%Q
    /\ (c == 251 # 250)%Q
    /\ ~ (c == Close b0)%Q
    /\ Open b1 = 2.01%Q
    /\ round2 (Close b0 * (1 + (0 + zs_gap 5 * (1 * 0.2)))) = 2%Q
    /\ exists b0' b1' c',
         for_range (iteration_rounded_carry zs_gap 1 0) 0 2
           ([], (251 # 250)%Q) 0%nat
         = Ok (([b0'; b1'], c'), 8%nat)
         /\ Open b1' = 2%Q.
Proof.
  do 3 eexists.
  split; [vm_compute; reflexivity |].
  split; [vm_compute; reflexivity |].
  split; [reflexivity |].
  split; [reflexivity |].
  split; [vm_compute; discriminate |].
  split; [reflexivity |].
  split; [reflexivity |].
  do 3 eexists. split; [vm_compute; reflexivity | reflexivity].
Qed.

(** C3 (amended): the state carried between iterations is the unrounded
    close.  After bar [i] is emitted, [current_price] is the unrounded close
    [c] of iteration [i]; bar [i] shows [round2 c], and the open of bar
    [i + 1] is [c] perturbed by the next gap draw, then rounded. *)
Theorem C3_carries_unrounded_close
  zs n_rows start_price volatility trend s (i : nat) :
  Z.of_nat i + 1 < n_rows <= MAX_ROWS ->
  exists prefix c s1 data s' bi bj,
    run_loop zs (Z.of_nat i + 1) start_price volatility trend s
    = Ok ((prefix, c), s1)
    /\ generate_ohlcv zs n_rows start_price volatility trend s = Ok (data, s')
    /\ nth_error prefix i = Some bi
    /\ nth_error data i = Some bi
    /\ nth_error data (S i) = Some bj
    /\ c = close_at zs start_price volatility trend s i
    /\ Close bi = round2 c
    /\ Open bj = round2 (c * (1 + (0 + zs (s1 + 1)%nat * (volatility * 0.2))))%Q.
Proof.
  intros [Hi Hn].
  do 7 eexists.
  split; [apply run_loop_in_range; lia |].
  split; [apply generate_in_range; exact Hn |].
  replace (Z.to_nat (Z.of_nat i + 1)) with (S i) by lia.
  split; [apply nth_error_map_seq_lt; lia |].
  split; [apply nth_error_map_seq_lt; lia |].
  split; [apply nth_error_map_seq_lt; lia |].
  repeat split.
Qed.

Lemma C3_witness :
  exists prefix c s1 data s' bi bj,
    run_loop zs_gap (Z.of_nat 0 + 1) (251 # 250) 1 0 0%nat = Ok ((prefix, c), s1)
    /\ generate_ohlcv zs_gap 2 (251 # 250) 1 0 0%nat = Ok (data, s')
    /\ nth_error prefix 0 = Some bi
    /\ nth_error data 0 = Some bi
    /\ nth_error data 1 = Some bj
    /\ c = close_at zs_gap (251 # 250) 1 0 0 0
    /\ Close bi = round2 c
    /\ Open bj = round2 (c * (1 + (0 + zs_gap (s1 + 1)%nat * (1 * 0.2))))%Q.
Proof.
  apply (C3_carries_unrounded_close zs_gap 2 (251 # 250) 1 0 0%nat 0%nat).
  unfold MAX_ROWS. simpl. lia.
Defined.

(** ** Parameter validation *)

(** C5 fails as stated: nothing is validated.  A negative start price is
    accepted and flows into the bar, and a negative row count returns the
    empty list; neither call fails. *)
Lemma C5_counterexample :
  (exists b,
     generate_ohlcv zs_zero 1 (-100) 0 0 0%nat = Ok ([b], 4%nat)
     /\ Open b = (-100)%Q /\ Close b = (-100)%Q)
  /\ generate_ohlcv zs_zero (-5) (-100) 0 0 0%nat = Ok ([], 0%nat).
Proof.
  split; [eexists; split; [vm_compute; reflexivity | split; reflexivity] |].
  vm_compute. reflexivity.
Qed.

(** C5 (amended): the generator validates nothing and has no
    invalid-parameter failure.  A row count of zero or less returns the
    empty list; every row count up to 2914635 returns that many bars for
    every start price, volatility and trend, positive or not; the only
    failure is the [OverflowError] of the date arithmetic for a larger row
    count, raised by the iteration of index 2914635 after the 2914635 bars
    before it have been built. *)
Theorem C5_no_validation zs n_rows start_price volatility trend s :
  (n_rows <= 0 ->
   generate_ohlcv zs n_rows start_price volatility trend s = Ok ([], s))
  /\ (n_rows <= MAX_ROWS ->
      exists data,
        generate_ohlcv zs n_rows start_price volatility trend s
        = Ok (data, (s + 4 * Z.to_nat n_rows)%nat)
        /\ List.length data = Z.to_nat n_rows)
  /\ (MAX_ROWS < n_rows ->
      generate_ohlcv zs n_rows start_price volatility trend s = Raise OverflowError
      /\ exists built s1,
           for_range (iteration zs volatility trend) 0 (Z.to_nat MAX_ROWS)
             ([], start_price) s = Ok (built, s1)
           /\ List.length (fst built) = Z.to_nat MAX_ROWS
           /\ iteration zs volatility trend (Z.to_nat MAX_ROWS) built s1
              = Raise OverflowError).
Proof.
  split; [| split].
  - intros H. rewrite generate_in_range by (unfold MAX_ROWS; lia).
    replace (Z.to_nat n_rows) with 0%nat by lia.
    rewrite Nat.mul_0_r, Nat.add_0_r. reflexivity.
  - intros H. eexists. split; [apply generate_in_range, H |].
    rewrite length_map, length_seq. reflexivity.
  - intros H. split; [apply generate_overflow, H |].
    do 2 eexists. split; [apply loop_in_range; unfold MAX_ROWS; lia |].
    split; [cbv [fst]; rewrite length_map, length_seq; reflexivity |].
    apply iteration_overflow. unfold MAX_ROWS. lia.
Qed.

Lemma C5_witness :
  generate_ohlcv zs_zero (-5) (-100) 0 0 0%nat = Ok ([], 0%nat)
  /\ (exists data,
        generate_ohlcv zs_zero 1 0 0 0 0%nat = Ok (data, 4%nat)
        /\ List.length data = 1%nat)
  /\ generate_ohlcv zs_zero 2914636 100 (1 # 50) (1 # 10000) 0%nat
     = Raise OverflowError.
Proof.
  split; [| split].
  - apply (C5_no_validation zs_zero (-5) (-100) 0 0 0%nat). lia.
  - apply (C5_no_validation zs_zero 1 0 0 0 0%nat). unfold MAX_ROWS. lia.
  - apply (C5_no_validation zs_zero 2914636 100 (1 # 50) (1 # 10000) 0%nat).
    unfold MAX_ROWS. lia.
Defined.

(** ** Zero volatility and zero drift *)

Section Flat.

Variable zs : nat -> Q.
Variable start_price : Q.
Variable s : nat.

Lemma flat_gap k : (gap_at zs 0 s k == 0)%Q.
Proof. unfold gap_at. ring. Qed.

Lemma flat_return k : (daily_return_at zs 0 0 s k == 0)%Q.
Proof. unfold daily_return_at. ring. Qed.

Lemma flat_range k : (range_at zs 0 s k == 0)%Q.
Proof.
  unfold range_at.
  assert (E : (0 + zs (s + 4 * k + 2)%nat * (0 * 0.5) == 0)%Q) by ring.
  rewrite E. reflexivity.
Qed.

Lemma flat_price k : (price_before zs start_price 0 0 s k == start_price)%Q.
Proof.
  induction k as [| k IH]; [reflexivity |].
  simpl. rewrite IH, flat_gap, flat_return. ring.
Qed.

Lemma flat_open k : (open_at zs start_price 0 0 s k == start_price)%Q.
Proof. unfold open_at. rewrite flat_price, flat_gap. ring. Qed.

Lemma flat_close k : (close_at zs start_price 0 0 s k == start_price)%Q.
Proof. unfold close_at. rewrite flat_open, flat_return. ring. Qed.

Lemma flat_high k : (high_at zs start_price 0 0 s k == start_price)%Q.
Proof.
  unfold high_at. rewrite flat_open, flat_close, flat_range, Q.max_id. ring.
Qed.

Lemma flat_low k : (low_at zs start_price 0 0 s k == start_price)%Q.
Proof.
  unfold low_at. rewrite flat_open, flat_close, flat_range, Q.min_id. ring.
Qed.

(** With zero volatility and drift every bar shows the rounded start price. *)
Lemma flat_bar k :
  bar_at zs start_price 0 0 s k
  = {| Date := PyDate.strftime_ymd (start_date + Z.of_nat k);
       Open := round2 start_price;
       High := round2 start_price;
       Low := round2 start_price;
       Close := round2 start_price;
       Adj_Close := round2 start_price;
       Volume := Z.max (volume_at zs s k) 100000 |}.
Proof.
  unfold bar_at.
  rewrite (round2_comp _ _ (flat_open k)), (round2_comp _ _ (flat_close k)),
    (round2_comp _ _ (flat_high k)), (round2_comp _ _ (flat_low k)).
  reflexivity.
Qed.

End Flat.

(** C6: three rows from 100.0 with zero volatility and zero drift.  For
    every stream, each bar has open, high, low, close and adjusted close
    equal to 100.00, the dates are 2020-01-01, 2020-01-02 and 2020-01-03, and
    each volume is the bar's draw around 1000000 (its fourth variate),
    truncated to an integer and floored at 100000. *)
Theorem C6_flat_three_rows zs s :
  generate_ohlcv zs 3 100 0 0 s
  = Ok ([ {| Date := "2020-01-01"; Open := 100; High := 100; Low := 100;
             Close := 100; Adj_Close := 100;
             Volume := Z.max (py_int (1000000 + zs (s + 3)%nat * 200000)) 100000 |};
          {| Date := "2020-01-02"; Open := 100; High := 100; Low := 100;
             Close := 100; Adj_Close := 100;
             Volume := Z.max (py_int (1000000 + zs (s + 7)%nat * 200000)) 100000 |};
          {| Date := "2020-01-03"; Open := 100; High := 100; Low := 100;
             Close := 100; Adj_Close := 100;
             Volume := Z.max (py_int (1000000 + zs (s + 11)%nat * 200000)) 100000 |} ],
        (s + 12)%nat).
Proof.
  rewrite generate_in_range by (unfold MAX_ROWS; lia).
  change (Z.to_nat 3) with 3%nat. cbn [seq map].
  rewrite !flat_bar. unfold volume_at.
  replace (s + 4 * 0 + 3)%nat with (s + 3)%nat by lia.
  replace (s + 4 * 1 + 3)%nat with (s + 7)%nat by lia.
  replace (s + 4 * 2 + 3)%nat with (s + 11)%nat by lia.
  reflexivity.
Qed.

(** ** Determinism *)

Section Determinism.

Variables zs1 zs2 : nat -> Q.
Variables start_price volatility trend : Q.
Variable s : nat.

Lemma price_before_ext k :
  (forall j, (j < 4 * k)%nat -> zs1 (s + j)%nat = zs2 (s + j)%nat) ->
  price_before zs1 start_price volatility trend s k
  = price_before zs2 start_price volatility trend s k.
Proof.
  induction k as [| k IH]; intros H; [reflexivity |].
  simpl. rewrite IH by (intros j Hj; apply H; lia).
  unfold gap_at, daily_return_at.
  rewrite <- !Nat.add_assoc. rewrite !H by lia. reflexivity.
Qed.

Lemma bar_at_ext k :
  (forall j, (j < 4 * S k)%nat -> zs1 (s + j)%nat = zs2 (s + j)%nat) ->
  bar_at zs1 start_price volatility trend s k
  = bar_at zs2 start_price volatility trend s k.
Proof.
  intros H.
  unfold bar_at, high_at, low_at, close_at, open_at, volume_at, range_at,
    gap_at, daily_return_at.
  rewrite price_before_ext by (intros j Hj; apply H; lia).
  rewrite <- !Nat.add_assoc. rewrite !H by lia. reflexivity.
Qed.

End Determinism.

(** C9: the result is a function of the arguments and of the variates the
    random source yields from its current state.  Two runs with the same
    arguments, started at the same position of two sources that yield the
    same [4 * n_rows] variates from there, return identical bars (or both
    raise) and leave the source at the same position. *)
Theorem C9_deterministic zs1 zs2 n_rows start_price volatility trend s :
  (forall j, (j < 4 * Z.to_nat n_rows)%nat -> zs1 (s + j)%nat = zs2 (s + j)%nat) ->
  generate_ohlcv zs1 n_rows start_price volatility trend s
  = generate_ohlcv zs2 n_rows start_price volatility trend s.
Proof.
  intros H. destruct (Z_le_gt_dec n_rows MAX_ROWS) as [L | G].
  - rewrite !generate_in_range by exact L.
    f_equal. f_equal. apply map_ext_in. intros k Hk. apply in_seq in Hk.
    apply bar_at_ext. intros j Hj. apply H. lia.
  - rewrite !generate_overflow by lia. reflexivity.
Qed.

Lemma C9_witness :
  zs_a 8%nat <> zs_b 8%nat
  /\ generate_ohlcv zs_a 2 100 (1 # 50) (1 # 10000) 0%nat
     = generate_ohlcv zs_b 2 100 (1 # 50) (1 # 10000) 0%nat.
Proof.
  split; [discriminate |].
  apply (C9_deterministic zs_a zs_b 2 100 (1 # 50) (1 # 10000) 0%nat).
  intros j Hj. change (4 * Z.to_nat 2)%nat with 8%nat in Hj.
  do 8 (destruct j as [| j]; [reflexivity |]). lia.
Defined.

(** * Further properties of [generate_ohlcv] *)

(** ** Rounding commutes with [max] and [min] *)

Lemma round2_max (o c : Q) :
  (round2 (Qmax o c) == Qmax (round2 o) (round2 c))%Q.
Proof.
  destruct (Qlt_le_dec o c) as [L | L].
  - apply Qlt_le_weak in L.
    rewrite (round2_comp _ _ (Q.max_r o c L)).
    symmetry. apply Q.max_r. apply round2_mono, L.
  - rewrite (round2_comp _ _ (Q.max_l o c L)).
    symmetry. apply Q.max_l. apply round2_mono, L.
Qed.

Lemma round2_min (o c : Q) :
  (round2 (Qmin o c) == Qmin (round2 o) (round2 c))%Q.
Proof.
  destruct (Qlt_le_dec o c) as [L | L].
  - apply Qlt_le_weak in L.
    rewrite (round2_comp _ _ (Q.min_l o c L)).
    symmetry. apply Q.min_l. apply round2_mono, L.
  - rewrite (round2_comp _ _ (Q.min_r o c L)).
    symmetry. apply Q.min_r. apply round2_mono, L.
Qed.

(** ** Volume as a function of its draw *)

Lemma py_int_floor (x : Q) : (0 <= x)%Q -> py_int x = Qfloor x.
Proof.
  intros H. destruct x as [n d]. unfold py_int, Qfloor; simpl.
  apply Z.quot_div_nonneg; [| lia].
  unfold Qle in H; simpl in H. lia.
Qed.

Lemma py_int_nonpos (x : Q) : (x <= 0)%Q -> py_int x <= 0.
Proof.
  intros H. destruct x as [n d]. unfold py_int; simpl.
  unfold Qle in H; simpl in H.
  assert (E : n = - (- n)) by lia. rewrite E.
  rewrite Z.quot_opp_l by lia.
  assert (0 <= Z.quot (- n) (Z.pos d)) by (apply Z.quot_pos; lia). lia.
Qed.

(** X2: the volume of a bar is a function of that bar's fourth variate
    alone.  With [d = 1000000 + z * 200000] the draw, the volume is the
    integer part [floor d] when [d >= 100000] and exactly 100000 otherwise;
    the direction in which [int] truncates never shows. *)
Theorem volume_of_draw zs n_rows start_price volatility trend s data s' :
  generate_ohlcv zs n_rows start_price volatility trend s = Ok (data, s') ->
  forall k b, nth_error data k = Some b ->
    let d := (1000000 + zs (s + 4 * k + 3)%nat * 200000)%Q in
    ((100000 <= d)%Q ->
       Volume b = Qfloor d
       /\ (inject_Z (Volume b) <= d)%Q /\ (d < inject_Z (Volume b) + 1)%Q)
    /\ ((d < 100000)%Q -> Volume b = 100000).
Proof.
  intros G k b N d.
  destruct (produced_nth _ _ _ _ _ _ _ _ _ _ G N) as (_ & ->).
  cbn [Volume bar_at]. unfold volume_at. fold d.
  split; intros H.
  - assert (P : (0 <= d)%Q) by lra.
    rewrite (py_int_floor d P).
    assert (F : 100000 <= Qfloor d).
    { change 100000 with (Qfloor (inject_Z 100000)). apply Qfloor_resp_le.
      exact H. }
    rewrite Z.max_l by exact F.
    split; [reflexivity |]. split; [apply Qfloor_le |].
    pose proof (Qlt_floor d) as U. rewrite inject_Z_plus in U. exact U.
  - apply Z.max_r.
    destruct (Qlt_le_dec d 0) as [Neg | Pos].
    + pose proof (py_int_nonpos d (Qlt_le_weak _ _ Neg)). lia.
    + rewrite (py_int_floor d Pos).
      pose proof (Qfloor_le d) as L.
      assert (T : (inject_Z (Qfloor d) < inject_Z 100000)%Q)
        by (eapply Qle_lt_trans; [exact L | exact H]).
      rewrite <- Zlt_Qlt in T. lia.
Qed.

Lemma volume_of_draw_witness :
  exists data s' b,
    generate_ohlcv (fun k => if (k =? 3)%nat then (-5)%Q else (1 # 3)%Q)
      2 100 (1 # 50) 0 0%nat = Ok (data, s')
    /\ nth_error data 1 = Some b
    /\ Volume b = 1066666
    /\ (exists b0, nth_error data 0 = Some b0 /\ Volume b0 = 100000).
Proof.
  do 3 eexists. split; [vm_compute; reflexivity |].
  split; [reflexivity |]. split.
  - apply (volume_of_draw (fun k => if (k =? 3)%nat then (-5)%Q else (1 # 3)%Q)
             2 100 (1 # 50) 0 0%nat _ 8%nat eq_refl 1%nat _ eq_refl).
    vm_compute. discriminate.
  - eexists. split; [reflexivity |].
    apply (volume_of_draw (fun k => if (k =? 3)%nat then (-5)%Q else (1 # 3)%Q)
             2 100 (1 # 50) 0 0%nat _ 8%nat eq_refl 0%nat _ eq_refl).
    vm_compute. reflexivity.
Defined.

(** ** Non-positive start prices *)

Section Nonpositive.

Variable zs : nat -> Q.
Variables start_price volatility trend : Q.
Variable s : nat.

Lemma price_zero k :
  (start_price == 0)%Q ->
  (price_before zs start_price volatility trend s k == 0)%Q.
Proof.
  intros H. induction k as [| k IH]; [exact H |].
  simpl. rewrite IH. ring.
Qed.

Lemma price_nonpos n :
  (start_price <= 0)%Q ->
  (forall k, (k < n)%nat ->
     (0 <= 1 + gap_at zs volatility s k)%Q
     /\ (0 <= 1 + daily_return_at zs volatility trend s k)%Q) ->
  (price_before zs start_price volatility trend s n <= 0)%Q.
Proof.
  intros H0. induction n as [| n IH]; intros H; [exact H0 |].
  simpl.
  destruct (H n (Nat.lt_succ_diag_r n)) as [Hg Hr].
  assert (Hp : (0 <= - price_before zs start_price volatility trend s n)%Q).
  { assert (price_before zs start_price volatility trend s n <= 0)%Q
      by (apply IH; intros k Hk; apply H; lia). lra. }
  pose proof (Qmult_le_0_compat _ _ (Qmult_le_0_compat _ _ Hp Hg) Hr) as P.
  set (p := price_before zs start_price volatility trend s n) in *.
  set (g := (1 + gap_at zs volatility s n)%Q) in *.
  set (r := (1 + daily_return_at zs volatility trend s n)%Q) in *.
  assert (E : (- p * g * r == - (p * g * r))%Q) by ring.
  rewrite E in P. lra.
Qed.

End Nonpositive.

(** X3: a start price of zero is absorbing.  Whatever the volatility, the
    drift and the draws, every bar of the run has open, high, low, close
    and adjusted close equal to 0. *)
Theorem zero_start_price_stays_zero zs n_rows volatility trend s data s' :
  generate_ohlcv zs n_rows 0 volatility trend s = Ok (data, s') ->
  forall b, In b data ->
    Open b = 0%Q /\ High b = 0%Q /\ Low b = 0%Q /\ Close b = 0%Q
    /\ Adj_Close b = 0%Q.
Proof.
  intros G b I.
  destruct (produced_in _ _ _ _ _ _ _ _ _ G I) as (k & _ & ->).
  assert (P : (price_before zs 0 volatility trend s k == 0)%Q)
    by (apply price_zero; reflexivity).
  assert (O : (open_at zs 0 volatility trend s k == 0)%Q)
    by (unfold open_at; rewrite P; ring).
  assert (C : (close_at zs 0 volatility trend s k == 0)%Q)
    by (unfold close_at; rewrite O; ring).
  assert (H : (high_at zs 0 volatility trend s k == 0)%Q)
    by (unfold high_at; rewrite O, C, Q.max_id; ring).
  assert (L : (low_at zs 0 volatility trend s k == 0)%Q)
    by (unfold low_at; rewrite O, C, Q.min_id; ring).
  cbn [Open High Low Close Adj_Close bar_at].
  rewrite (round2_comp _ _ O), (round2_comp _ _ C), (round2_comp _ _ H),
    (round2_comp _ _ L).
  repeat split; reflexivity.
Qed.

Lemma zero_start_price_stays_zero_witness :
  exists data s',
    generate_ohlcv zs_crash 2 0 5 (1 # 10) 0%nat = Ok (data, s')
    /\ Forall (fun b => Open b = 0%Q /\ High b = 0%Q /\ Low b = 0%Q
                        /\ Close b = 0%Q /\ Adj_Close b = 0%Q) data.
Proof.
  do 2 eexists. split; [vm_compute; reflexivity |].
  apply Forall_forall.
  apply (zero_start_price_stays_zero zs_crash 2 5 (1 # 10) 0%nat _ 8%nat).
  vm_compute. reflexivity.
Defined.

(** X4: a non-positive start price turns the bars inside out.  If the start
    price is at most 0 and every gap and daily-return draw is at least
    [-1], every emitted price is at most 0, the high is at most the larger
    of open and close and the low is at least the smaller of them. *)
Theorem nonpositive_start_inverts_range
  zs n_rows start_price volatility trend s data s' :
  (start_price <= 0)%Q ->
  (forall k, (k < Z.to_nat n_rows)%nat ->
     (0 <= 1 + gap_at zs volatility s k)%Q
     /\ (0 <= 1 + daily_return_at zs volatility trend s k)%Q) ->
  generate_ohlcv zs n_rows start_price volatility trend s = Ok (data, s') ->
  forall b, In b data ->
    (Open b <= 0)%Q /\ (Close b <= 0)%Q
    /\ (High b <= Qmax (Open b) (Close b))%Q
    /\ (Qmin (Open b) (Close b) <= Low b)%Q.
Proof.
  intros H0 Hd G b I.
  destruct (produced_in _ _ _ _ _ _ _ _ _ G I) as (k & Hk & ->).
  assert (Hp : (price_before zs start_price volatility trend s k <= 0)%Q)
    by (apply price_nonpos; [exact H0 | intros j Hj; apply Hd; lia]).
  destruct (Hd k Hk) as [Hg Hr].
  set (o := open_at zs start_price volatility trend s k).
  set (c := close_at zs start_price volatility trend s k).
  assert (Ho : (o <= 0)%Q).
  { unfold o, open_at.
    assert (Q0 : (0 <= - price_before zs start_price volatility trend s k)%Q) by lra.
    pose proof (Qmult_le_0_compat _ _ Q0 Hg) as P.
    set (p := price_before zs start_price volatility trend s k) in *.
    set (g := (1 + gap_at zs volatility s k)%Q) in *.
    assert (E : (- p * g == - (p * g))%Q) by ring. rewrite E in P. lra. }
  assert (Hc : (c <= 0)%Q).
  { unfold c, close_at. fold o.
    assert (Q0 : (0 <= - o)%Q) by lra.
    pose proof (Qmult_le_0_compat _ _ Q0 Hr) as P.
    set (r := (1 + daily_return_at zs volatility trend s k)%Q) in *.
    assert (E : (- o * r == - (o * r))%Q) by ring. rewrite E in P. lra. }
  pose proof (range_nonneg zs volatility s k) as Hrange.
  set (w := range_at zs volatility s k) in *.
  assert (Hmax : (Qmax o c <= 0)%Q) by (apply Q.max_lub; assumption).
  assert (Hmin : (Qmin o c <= 0)%Q)
    by (eapply Qle_trans; [apply Q.le_min_l | exact Ho]).
  assert (Hh : (high_at zs start_price volatility trend s k <= Qmax o c)%Q).
  { unfold high_at. fold o c w.
    assert (Q0 : (0 <= - Qmax o c)%Q) by lra.
    pose proof (Qmult_le_0_compat _ _ Q0 Hrange) as P.
    assert (E : (- Qmax o c * w == - (Qmax o c * w))%Q) by ring.
    rewrite E in P. lra. }
  assert (Hl : (Qmin o c <= low_at zs start_price volatility trend s k)%Q).
  { unfold low_at. fold o c w.
    assert (Q0 : (0 <= - Qmin o c)%Q) by lra.
    pose proof (Qmult_le_0_compat _ _ Q0 Hrange) as P.
    assert (E : (- Qmin o c * w == - (Qmin o c * w))%Q) by ring.
    rewrite E in P. lra. }
  cbn [Open High Low Close bar_at]. fold o c.
  split; [change 0%Q with (round2 0); apply round2_mono, Ho |].
  split; [change 0%Q with (round2 0); apply round2_mono, Hc |].
  split.
  - rewrite <- round2_max. apply round2_mono, Hh.
  - rewrite <- round2_min. apply round2_mono, Hl.
Qed.

Lemma nonpositive_start_inverts_range_witness :
  exists data s' b,
    generate_ohlcv zs_crash 2 (-100) (1 # 10) (1 # 100) 0%nat = Ok (data, s')
    /\ nth_error data 0 = Some b
    /\ (High b < Low b)%Q
    /\ (Open b <= 0)%Q /\ (Close b <= 0)%Q
    /\ (High b <= Qmax (Open b) (Close b))%Q
    /\ (Qmin (Open b) (Close b) <= Low b)%Q.
Proof.
  do 3 eexists. split; [vm_compute; reflexivity |].
  split; [reflexivity |]. split; [reflexivity |].
  eapply (nonpositive_start_inverts_range zs_crash 2 (-100) (1 # 10) (1 # 100)
            0%nat).
  - discriminate.
  - intros k Hk. destruct k as [| [| k]]; [split; discriminate .. | lia].
  - vm_compute. reflexivity.
  - left. reflexivity.
Defined.

(** ** Runs of different lengths and with different price arguments *)

(** X5: asking for more rows only appends bars.  From the same state of the
    random source, the bars of a run of [n] rows are the first [n] bars of
    every longer run with the same arguments. *)
Theorem shorter_run_is_prefix zs n m start_price volatility trend s :
  n <= m -> m <= MAX_ROWS ->
  exists data rest,
    generate_ohlcv zs n start_price volatility trend s
    = Ok (data, (s + 4 * Z.to_nat n)%nat)
    /\ generate_ohlcv zs m start_price volatility trend s
       = Ok ((data ++ rest)%list, (s + 4 * Z.to_nat m)%nat)
    /\ List.length rest = (Z.to_nat m - Z.to_nat n)%nat.
Proof.
  intros Hnm Hm.
  exists (map (bar_at zs start_price volatility trend s) (seq 0 (Z.to_nat n))).
  exists (map (bar_at zs start_price volatility trend s)
            (seq (Z.to_nat n) (Z.to_nat m - Z.to_nat n))).
  split; [apply generate_in_range; lia |].
  split.
  - rewrite generate_in_range by exact Hm.
    rewrite <- map_app.
    replace (Z.to_nat m) with (Z.to_nat n + (Z.to_nat m - Z.to_nat n))%nat at 1 by lia.
    rewrite seq_app. reflexivity.
  - rewrite length_map, length_seq. reflexivity.
Qed.

Lemma shorter_run_is_prefix_witness :
  exists data rest,
    generate_ohlcv zs_gap 1 100 1 (1 # 100) 0%nat
    = Ok (data, (0 + 4 * Z.to_nat 1)%nat)
    /\ generate_ohlcv zs_gap 3 100 1 (1 # 100) 0%nat
       = Ok ((data ++ rest)%list, (0 + 4 * Z.to_nat 3)%nat)
    /\ List.length rest = (Z.to_nat 3 - Z.to_nat 1)%nat.
Proof.
  apply (shorter_run_is_prefix zs_gap 1 3 100 1 (1 # 100) 0%nat).
  - lia.
  - unfold MAX_ROWS. lia.
Defined.

(** X6: the dates and the volumes do not depend on the price arguments.
    Two runs from the same state of the random source with the same row
    count, but any start prices, volatilities and drifts, both succeed or
    both fail, consume the same number of variates and agree on every bar's
    date and volume. *)
Theorem dates_and_volumes_ignore_price_arguments
  zs n_rows start_price volatility trend start_price' volatility' trend' s
  data s' :
  generate_ohlcv zs n_rows start_price volatility trend s = Ok (data, s') ->
  exists data',
    generate_ohlcv zs n_rows start_price' volatility' trend' s = Ok (data', s')
    /\ map Date data' = map Date data
    /\ map Volume data' = map Volume data.
Proof.
  intros G. apply generate_inv in G. destruct G as (L & -> & ->).
  eexists. split; [apply generate_in_range, L |].
  rewrite !map_map. split; reflexivity.
Qed.

Lemma dates_and_volumes_ignore_price_arguments_witness :
  exists data data' s',
    generate_ohlcv zs_a 2 100 (1 # 50) (1 # 10000) 0%nat = Ok (data, s')
    /\ generate_ohlcv zs_a 2 (-3) 5 (-1 # 2) 0%nat = Ok (data', s')
    /\ map Open data' <> map Open data
    /\ map Date data' = map Date data
    /\ map Volume data' = map Volume data.
Proof.
  destruct (dates_and_volumes_ignore_price_arguments
              zs_a 2 100 (1 # 50) (1 # 10000) (-3) 5 (-1 # 2) 0%nat _ 8%nat eq_refl)
    as (data' & G & D & V).
  eexists. exists data'. exists 8%nat.
  split; [reflexivity |]. split; [exact G |].
  split; [| split; [exact D | exact V]].
  vm_compute in G. injection G as <-. vm_compute. discriminate.
Defined.

(** ** Zero volatility *)

Section ZeroVolatility.

Variable zs : nat -> Q.
Variables start_price trend : Q.
Variable s : nat.

Lemma still_return k : (daily_return_at zs 0 trend s k == trend)%Q.
Proof. unfold daily_return_at. ring. Qed.

Lemma still_open k :
  (open_at zs start_price 0 trend s k
   == price_before zs start_price 0 trend s k)%Q.
Proof. unfold open_at. rewrite flat_gap. ring. Qed.

Lemma still_high k :
  (high_at zs start_price 0 trend s k
   == Qmax (open_at zs start_price 0 trend s k)
        (close_at zs start_price 0 trend s k))%Q.
Proof. unfold high_at. rewrite flat_range. ring. Qed.

Lemma still_low k :
  (low_at zs start_price 0 trend s k
   == Qmin (open_at zs start_price 0 trend s k)
        (close_at zs start_price 0 trend s k))%Q.
Proof. unfold low_at. rewrite flat_range. ring. Qed.

Lemma still_close_step k :
  (0 <= start_price)%Q -> (0 <= trend)%Q ->
  (0 <= price_before zs start_price 0 trend s k)%Q
  /\ (price_before zs start_price 0 trend s k
      <= price_before zs start_price 0 trend s (S k))%Q.
Proof.
  intros H0 Ht. induction k as [| k [IH0 IH]].
  - split; [exact H0 |]. cbn [price_before].
    rewrite flat_gap, still_return.
    pose proof (Qmult_le_0_compat _ _ H0 Ht). lra.
  - assert (P : (0 <= price_before zs start_price 0 trend s (S k))%Q) by lra.
    split; [exact P |].
    change (price_before zs start_price 0 trend s (S (S k)))
      with (price_before zs start_price 0 trend s (S k)
            * (1 + gap_at zs 0 s (S k))
            * (1 + daily_return_at zs 0 trend s (S k)))%Q.
    rewrite flat_gap, still_return.
    pose proof (Qmult_le_0_compat _ _ P Ht). lra.
Qed.

Lemma still_price_mono i j :
  (0 <= start_price)%Q -> (0 <= trend)%Q -> (i <= j)%nat ->
  (price_before zs start_price 0 trend s i
   <= price_before zs start_price 0 trend s j)%Q.
Proof.
  intros H0 Ht L. induction L as [| j L IH]; [apply Qle_refl |].
  eapply Qle_trans; [exact IH |]. apply still_close_step; assumption.
Qed.

End ZeroVolatility.

(** X7: with zero volatility there are no gaps and no wicks, whatever the
    drift and the draws.  The first bar opens at the rounded start price,
    every bar's high is the larger and its low the smaller of its open and
    close, and the next bar opens exactly at this bar's emitted close. *)
Theorem zero_volatility_no_gaps_no_wicks zs n_rows start_price trend s data s' :
  generate_ohlcv zs n_rows start_price 0 trend s = Ok (data, s') ->
  forall k b, nth_error data k = Some b ->
    (k = 0%nat -> Open b = round2 start_price)
    /\ (High b == Qmax (Open b) (Close b))%Q
    /\ (Low b == Qmin (Open b) (Close b))%Q
    /\ forall b', nth_error data (S k) = Some b' -> Open b' = Close b.
Proof.
  intros G k b N.
  pose proof (produced_nth _ _ _ _ _ _ _ _ _ _ G N) as (_ & ->).
  cbn [Open High Low Close bar_at].
  split; [intros ->; apply round2_comp; rewrite still_open; reflexivity |].
  split; [rewrite (round2_comp _ _ (still_high zs start_price trend s k));
          apply round2_max |].
  split; [rewrite (round2_comp _ _ (still_low zs start_price trend s k));
          apply round2_min |].
  intros b' N'.
  pose proof (produced_nth _ _ _ _ _ _ _ _ _ _ G N') as (_ & ->).
  cbn [Open bar_at]. apply round2_comp.
  rewrite still_open. reflexivity.
Qed.

Lemma zero_volatility_no_gaps_no_wicks_witness :
  exists data s' b,
    generate_ohlcv zs_a 3 100 0 (1 # 10) 0%nat = Ok (data, s')
    /\ nth_error data 1 = Some b
    /\ Open b = 110%Q /\ Close b = 121%Q
    /\ (1%nat = 0%nat -> Open b = round2 100)
    /\ (High b == Qmax (Open b) (Close b))%Q
    /\ (Low b == Qmin (Open b) (Close b))%Q
    /\ forall b', nth_error data 2 = Some b' -> Open b' = Close b.
Proof.
  do 3 eexists. split; [vm_compute; reflexivity |].
  split; [reflexivity |]. split; [reflexivity |]. split; [reflexivity |].
  apply (zero_volatility_no_gaps_no_wicks zs_a 3 100 (1 # 10) 0%nat _ 12%nat eq_refl
           1%nat _ eq_refl).
Defined.


(** X8: with zero volatility, a non-negative start price and a non-negative
    drift, prices never fall: every bar closes at or above its open, and the
    emitted closes are non-decreasing along the run. *)
Theorem zero_volatility_upward_drift zs n_rows start_price trend s data s' :
  (0 <= start_price)%Q -> (0 <= trend)%Q ->
  generate_ohlcv zs n_rows start_price 0 trend s = Ok (data, s') ->
  forall i j bi bj, (i <= j)%nat ->
    nth_error data i = Some bi -> nth_error data j = Some bj ->
    (0 <= Open bi)%Q /\ (Open bi <= Close bi)%Q /\ (Close bi <= Close bj)%Q.
Proof.
  intros H0 Ht G i j bi bj L Ni Nj.
  pose proof (produced_nth _ _ _ _ _ _ _ _ _ _ G Ni) as (_ & ->).
  pose proof (produced_nth _ _ _ _ _ _ _ _ _ _ G Nj) as (_ & ->).
  cbn [Open Close bar_at].
  pose proof (still_close_step zs start_price trend s i H0 Ht) as [P0 P1].
  split; [| split].
  - apply round2_nonneg. rewrite still_open. exact P0.
  - apply round2_mono. rewrite still_open. exact P1.
  - apply round2_mono.
    change (price_before zs start_price 0 trend s (S i)
            <= price_before zs start_price 0 trend s (S j))%Q.
    apply still_price_mono; [assumption | assumption | lia].
Qed.

Lemma zero_volatility_upward_drift_witness :
  exists data s' b0 b2,
    generate_ohlcv zs_a 3 100 0 (1 # 10) 0%nat = Ok (data, s')
    /\ nth_error data 0 = Some b0 /\ nth_error data 2 = Some b2
    /\ (0 <= Open b0)%Q /\ (Open b0 <= Close b0)%Q /\ (Close b0 <= Close b2)%Q.
Proof.
  do 4 eexists. split; [vm_compute; reflexivity |].
  split; [reflexivity |]. split; [reflexivity |].
  eapply (zero_volatility_upward_drift zs_a 3 100 (1 # 10) 0%nat)
    with (i := 0%nat) (j := 2%nat).
  - discriminate.
  - discriminate.
  - vm_compute. reflexivity.
  - apply Nat.le_0_l.
  - reflexivity.
  - reflexivity.
Defined.

(** ** The calendar behind the [Date] column *)

Lemma ord2ymd_month_day (ordinal : Z) :
  PyDate.ord2ymd ordinal
  = let n0 := ordinal - 1 in
    let a := n0 / 146097 in
    let r1 := n0 mod 146097 in
    let b := r1 / 36524 in
    let r2 := r1 mod 36524 in
    let c := r2 / 1461 in
    let r3 := r2 mod 1461 in
    let e := r3 / 365 in
    let r4 := r3 mod 365 in
    let year := a * 400 + 1 + b * 100 + c * 4 + e in
    if (e =? 4) || (b =? 4) then (year - 1, 12, 31)
    else
      let leapyear := (e =? 3) && (negb (c =? 24) || (b =? 3)) in
      (year, fst (month_day leapyear r4), snd (month_day leapyear r4)).
Proof.
  unfold PyDate.ord2ymd, month_day, PyDate.DI400Y, PyDate.DI100Y, PyDate.DI4Y.
  cbv zeta.
  destruct (_ || _); [reflexivity |].
  destruct (_ <? _); reflexivity.
Qed.

Lemma month_day_checked (leapyear : bool) :
  forallb (month_day_ok leapyear) (seq 0 365) = true.
Proof. destruct leapyear; vm_compute; reflexivity. Qed.

Lemma month_day_spec (leapyear : bool) (n : Z) :
  0 <= n < 365 ->
  let m := fst (month_day leapyear n) in
  let d := snd (month_day leapyear n) in
  1 <= m <= 12 /\ 1 <= d <= month_length leapyear m
  /\ month_offset leapyear m + d = n + 1.
Proof.
  intros H.
  pose proof (month_day_checked leapyear) as A.
  rewrite forallb_forall in A.
  specialize (A (Z.to_nat n)).
  assert (I : In (Z.to_nat n) (seq 0 365)) by (apply in_seq; lia).
  apply A in I. unfold month_day_ok in I. cbv zeta in I.
  rewrite Z2Nat.id in I by lia.
  destruct (month_day leapyear n) as [m d]. cbn [fst snd].
  rewrite !andb_true_iff in I.
  destruct I as ((((I1 & I2) & I3) & I4) & I5).
  apply Z.leb_le in I1, I2, I3, I4. apply Z.eqb_eq in I5. lia.
Qed.

Ltac solve_div := Z.div_mod_to_equations; lia.

Ltac split_leap :=
  unfold PyDate.is_leap;
  repeat match goal with
         | |- context [?x =? ?y] => destruct (Z.eqb_spec x y)
         end;
  cbn [andb orb negb PyDate.b2z].

Lemma is_leap_of_cycles (a b c e : Z) :
  0 <= b <= 3 -> 0 <= c <= 24 -> 0 <= e <= 3 ->
  PyDate.is_leap (a * 400 + 1 + b * 100 + c * 4 + e)
  = (e =? 3) && (negb (c =? 24) || (b =? 3)).
Proof.
  intros Hb Hc He. split_leap; try reflexivity; exfalso; solve_div.
Qed.

Lemma days_before_year_of_cycles (a b c e : Z) :
  0 <= b <= 3 -> 0 <= c <= 24 -> 0 <= e <= 3 ->
  PyDate.days_before_year (a * 400 + 1 + b * 100 + c * 4 + e)
  = 146097 * a + 36524 * b + 1461 * c + 365 * e.
Proof.
  intros Hb Hc He. unfold PyDate.days_before_year. cbv zeta. solve_div.
Qed.

Lemma days_before_year_succ (y : Z) :
  PyDate.days_before_year (y + 1)
  = PyDate.days_before_year y + 365 + PyDate.b2z (PyDate.is_leap y).
Proof.
  unfold PyDate.days_before_year. cbv zeta. split_leap; solve_div.
Qed.

Lemma days_before_year_mono (y y' : Z) :
  y <= y' -> PyDate.days_before_year y <= PyDate.days_before_year y'.
Proof.
  intros H. unfold PyDate.days_before_year. cbv zeta. solve_div.
Qed.

Lemma days_in_month_length (y m : Z) :
  days_in_month y m = month_length (PyDate.is_leap y) m.
Proof.
  unfold days_in_month, month_length.
  destruct (Z.eqb_spec m 2) as [-> | N]; destruct (PyDate.is_leap y);
    cbn [andb PyDate.b2z]; try reflexivity; lia.
Qed.

Lemma days_before_month_offset (y m : Z) :
  PyDate.days_before_month y m = month_offset (PyDate.is_leap y) m.
Proof. reflexivity. Qed.

Ltac each_month m :=
  let H := fresh in
  assert (H : m = 1 \/ m = 2 \/ m = 3 \/ m = 4 \/ m = 5 \/ m = 6 \/ m = 7
              \/ m = 8 \/ m = 9 \/ m = 10 \/ m = 11 \/ m = 12) by lia;
  repeat (destruct H as [H | H]); subst m.

Ltac calc_months :=
  repeat match goal with
         | |- context [month_length ?l ?m] =>
             let v := eval vm_compute in (month_length l m) in
             change (month_length l m) with v
         | |- context [month_offset ?l ?m] =>
             let v := eval vm_compute in (month_offset l m) in
             change (month_offset l m) with v
         | H : context [month_length ?l ?m] |- _ =>
             let v := eval vm_compute in (month_length l m) in
             change (month_length l m) with v in H
         | H : context [month_offset ?l ?m] |- _ =>
             let v := eval vm_compute in (month_offset l m) in
             change (month_offset l m) with v in H
         end;
  cbn [PyDate.b2z] in *.

Lemma month_offset_next (leapyear : bool) (m : Z) :
  1 <= m <= 12 ->
  1 <= month_length leapyear m
  /\ 0 <= month_offset leapyear m
  /\ (m < 12 ->
      month_offset leapyear m + month_length leapyear m
      = month_offset leapyear (m + 1))
  /\ (m = 12 ->
      month_offset leapyear m + month_length leapyear m
      = 365 + PyDate.b2z leapyear).
Proof.
  intros H. each_month m; destruct leapyear; calc_months; lia.
Qed.

Lemma month_offset_mono (leapyear : bool) (m m' : Z) :
  1 <= m -> m < m' -> m' <= 12 ->
  month_offset leapyear m + month_length leapyear m <= month_offset leapyear m'.
Proof.
  intros H1 H2 H3.
  assert (Hm : 1 <= m <= 12) by lia. assert (Hm' : 1 <= m' <= 12) by lia.
  each_month m; each_month m'; try lia; destruct leapyear; calc_months; lia.
Qed.

Lemma month_offset_year (leapyear : bool) (m d : Z) :
  1 <= m <= 12 -> 1 <= d <= month_length leapyear m ->
  1 <= month_offset leapyear m + d <= 365 + PyDate.b2z leapyear.
Proof.
  intros Hm Hd. each_month m; destruct leapyear; calc_months; lia.
Qed.

(** [_ord2ymd] returns a valid date, and [_ymd2ord] takes it back. *)
Lemma ord2ymd_correct (n : Z) :
  1 <= n ->
  valid_date (PyDate.ord2ymd n) /\ date_ordinal (PyDate.ord2ymd n) = n.
Proof.
  intros Hn. rewrite ord2ymd_month_day. cbv zeta.
  pose proof (Z.div_mod (n - 1) 146097 ltac:(lia)) as E1.
  pose proof (Z.mod_pos_bound (n - 1) 146097 ltac:(lia)) as B1.
  assert (A0 : 0 <= (n - 1) / 146097) by (apply Z.div_pos; lia).
  set (a := (n - 1) / 146097) in *. set (r1 := (n - 1) mod 146097) in *.
  pose proof (Z.div_mod r1 36524 ltac:(lia)) as E2.
  pose proof (Z.mod_pos_bound r1 36524 ltac:(lia)) as B2.
  set (b := r1 / 36524) in *. set (r2 := r1 mod 36524) in *.
  pose proof (Z.div_mod r2 1461 ltac:(lia)) as E3.
  pose proof (Z.mod_pos_bound r2 1461 ltac:(lia)) as B3.
  set (c := r2 / 1461) in *. set (r3 := r2 mod 1461) in *.
  pose proof (Z.div_mod r3 365 ltac:(lia)) as E4.
  pose proof (Z.mod_pos_bound r3 365 ltac:(lia)) as B4.
  set (e := r3 / 365) in *. set (r4 := r3 mod 365) in *.
  clearbody a r1 b r2 c r3 e r4.
  assert (Hb : 0 <= b <= 4) by lia.
  assert (Hc : 0 <= c <= 24) by lia.
  assert (He : 0 <= e <= 4) by lia.
  destruct (Z.eqb_spec e 4) as [E | E]; [| destruct (Z.eqb_spec b 4) as [B | B]];
    cbn [orb].
  - (* the last day of a four-year cycle *)
    assert (L : PyDate.is_leap (a * 400 + 1 + b * 100 + c * 4 + e - 1) = true).
    { split_leap; try reflexivity; exfalso; solve_div. }
    unfold valid_date, date_ordinal, PyDate.ymd2ord.
    rewrite days_in_month_length, days_before_month_offset, L.
    split; [calc_months; lia |].
    unfold PyDate.days_before_year. cbv zeta. calc_months. solve_div.
  - (* the last day of a four-hundred-year cycle *)
    assert (L : PyDate.is_leap (a * 400 + 1 + b * 100 + c * 4 + e - 1) = true).
    { split_leap; try reflexivity; exfalso; solve_div. }
    unfold valid_date, date_ordinal, PyDate.ymd2ord.
    rewrite days_in_month_length, days_before_month_offset, L.
    split; [calc_months; lia |].
    unfold PyDate.days_before_year. cbv zeta. calc_months. solve_div.
  - set (leapyear := (e =? 3) && (negb (c =? 24) || (b =? 3))).
    pose proof (month_day_spec leapyear r4 B4) as S. cbv zeta in S.
    destruct S as (Sm & Sd & So).
    set (m := fst (month_day leapyear r4)) in *.
    set (d := snd (month_day leapyear r4)) in *.
    assert (L : PyDate.is_leap (a * 400 + 1 + b * 100 + c * 4 + e) = leapyear)
      by (apply is_leap_of_cycles; lia).
    unfold valid_date, date_ordinal, PyDate.ymd2ord.
    rewrite days_in_month_length, days_before_month_offset, L.
    rewrite days_before_year_of_cycles by lia.
    split; [| lia]. split; [lia |]. split; assumption.
Qed.

(** A valid date falls inside its year. *)
Lemma date_ordinal_in_year (y m d : Z) :
  valid_date (y, m, d) ->
  PyDate.days_before_year y < date_ordinal (y, m, d)
  <= PyDate.days_before_year (y + 1).
Proof.
  intros (Hy & Hm & Hd). rewrite days_in_month_length in Hd.
  unfold date_ordinal, PyDate.ymd2ord.
  rewrite days_before_month_offset, days_before_year_succ.
  pose proof (month_offset_year _ _ _ Hm Hd). lia.
Qed.

(** [_ymd2ord] is strictly increasing on valid dates. *)
Lemma date_ordinal_lt (p q : Z * Z * Z) :
  valid_date p -> valid_date q -> date_lt p q ->
  date_ordinal p < date_ordinal q.
Proof.
  destruct p as [[y m] d], q as [[y' m'] d'].
  intros Vp Vq L.
  pose proof (date_ordinal_in_year _ _ _ Vp) as Ip.
  pose proof (date_ordinal_in_year _ _ _ Vq) as Iq.
  destruct L as [L | (-> & L)].
  - pose proof (days_before_year_mono (y + 1) y' ltac:(lia)). lia.
  - destruct Vp as (_ & Hm & Hd), Vq as (_ & Hm' & Hd').
    rewrite days_in_month_length in Hd, Hd'.
    unfold date_ordinal, PyDate.ymd2ord.
    rewrite !days_before_month_offset.
    destruct L as [L | (-> & L)]; [| lia].
    pose proof (month_offset_mono (PyDate.is_leap y') m m' ltac:(lia) L ltac:(lia)).
    lia.
Qed.

Lemma date_lt_trichotomy (p q : Z * Z * Z) :
  date_lt p q \/ p = q \/ date_lt q p.
Proof.
  destruct p as [[y m] d], q as [[y' m'] d']. unfold date_lt.
  destruct (Z.lt_trichotomy y y') as [? | [-> | ?]]; [lia | | lia].
  destruct (Z.lt_trichotomy m m') as [? | [-> | ?]]; [lia | | lia].
  destruct (Z.lt_trichotomy d d') as [? | [-> | ?]]; [lia | | lia].
  right. left. reflexivity.
Qed.

Lemma date_ordinal_inj (p q : Z * Z * Z) :
  valid_date p -> valid_date q -> date_ordinal p = date_ordinal q -> p = q.
Proof.
  intros Vp Vq E.
  destruct (date_lt_trichotomy p q) as [L | [-> | L]]; [| reflexivity |].
  - pose proof (date_ordinal_lt _ _ Vp Vq L). lia.
  - pose proof (date_ordinal_lt _ _ Vq Vp L). lia.
Qed.

(** The day after a valid date is valid and has the next ordinal. *)
Lemma next_day_spec (p : Z * Z * Z) :
  valid_date p ->
  valid_date (next_day p) /\ date_ordinal (next_day p) = date_ordinal p + 1.
Proof.
  destruct p as [[y m] d]. intros (Hy & Hm & Hd).
  unfold next_day.
  destruct (Z.ltb_spec d (days_in_month y m)) as [L | L].
  - split; [unfold valid_date; lia |].
    unfold date_ordinal, PyDate.ymd2ord. lia.
  - assert (E : d = days_in_month y m) by lia.
    rewrite days_in_month_length in E.
    pose proof (month_offset_next (PyDate.is_leap y) m Hm) as (N1 & N2 & N3 & N4).
    destruct (Z.ltb_spec m 12) as [M | M].
    + split.
      * unfold valid_date. rewrite days_in_month_length.
        pose proof (month_offset_next (PyDate.is_leap y) (m + 1) ltac:(lia)). lia.
      * unfold date_ordinal, PyDate.ymd2ord.
        rewrite !days_before_month_offset, <- N3 by exact M. lia.
    + split.
      * unfold valid_date. rewrite days_in_month_length.
        pose proof (month_offset_next (PyDate.is_leap (y + 1)) 1 ltac:(lia)). lia.
      * unfold date_ordinal, PyDate.ymd2ord.
        rewrite !days_before_month_offset, days_before_year_succ.
        specialize (N4 ltac:(lia)).
        change (month_offset (PyDate.is_leap (y + 1)) 1) with (0 + 0).
        lia.
Qed.

(** Adding a day to an ordinal moves [_ord2ymd] to the next calendar day. *)
Lemma ord2ymd_succ (n : Z) :
  1 <= n -> PyDate.ord2ymd (n + 1) = next_day (PyDate.ord2ymd n).
Proof.
  intros H.
  destruct (ord2ymd_correct n H) as [V E].
  destruct (ord2ymd_correct (n + 1) ltac:(lia)) as [V' E'].
  destruct (next_day_spec _ V) as [Vn En].
  apply date_ordinal_inj; [assumption | assumption | lia].
Qed.

Lemma ord2ymd_lt (n n' : Z) :
  1 <= n -> n < n' -> date_lt (PyDate.ord2ymd n) (PyDate.ord2ymd n').
Proof.
  intros H L.
  destruct (ord2ymd_correct n H) as [V E].
  destruct (ord2ymd_correct n' ltac:(lia)) as [V' E'].
  destruct (date_lt_trichotomy (PyDate.ord2ymd n) (PyDate.ord2ymd n'))
    as [D | [D | D]]; [exact D | |].
  - rewrite D in E. lia.
  - pose proof (date_ordinal_lt _ _ V' V D). lia.
Qed.

(** Between 2020-01-01 and 9999-12-31 the year has four digits. *)
Lemma ord2ymd_year_range (n : Z) :
  start_date <= n <= PyDate.MAXORDINAL ->
  let '(y, _, _) := PyDate.ord2ymd n in 2020 <= y <= 9999.
Proof.
  intros H.
  assert (H1 : 1 <= n) by (change start_date with 737425 in H; lia).
  destruct (ord2ymd_correct n H1) as [V E].
  destruct (PyDate.ord2ymd n) as [[y m] d].
  assert (V0 : valid_date (2020, 1, 1)) by (vm_compute; intuition discriminate).
  assert (V9 : valid_date (9999, 12, 31)) by (vm_compute; intuition discriminate).
  split.
  - destruct (Z_lt_le_dec y 2020) as [L | L]; [| exact L].
    pose proof (date_ordinal_lt (y, m, d) (2020, 1, 1) V V0 (or_introl L)) as O.
    change (date_ordinal (2020, 1, 1)) with start_date in O. lia.
  - destruct (Z_lt_le_dec 9999 y) as [L | L]; [| exact L].
    pose proof (date_ordinal_lt (9999, 12, 31) (y, m, d) V9 V (or_introl L)) as O.
    change (date_ordinal (9999, 12, 31)) with PyDate.MAXORDINAL in O. lia.
Qed.

Lemma strftime_iso (n : Z) : PyDate.strftime_ymd n = iso_date (PyDate.ord2ymd n).
Proof.
  unfold PyDate.strftime_ymd, iso_date.
  destruct (PyDate.ord2ymd n) as [[y m] d]. reflexivity.
Qed.

Lemma digit_inj (x y : Z) : PyDate.digit x = PyDate.digit y -> x mod 10 = y mod 10.
Proof.
  intros H. apply (f_equal nat_of_ascii) in H. unfold PyDate.digit in H.
  pose proof (Z.mod_pos_bound x 10 ltac:(lia)).
  pose proof (Z.mod_pos_bound y 10 ltac:(lia)).
  rewrite !nat_ascii_embedding in H by lia. lia.
Qed.

(** Dates with four-digit years have distinct texts. *)
Lemma iso_date_inj (p q : Z * Z * Z) :
  (let '(y, m, d) := p in 0 <= y <= 9999 /\ 0 <= m <= 99 /\ 0 <= d <= 99) ->
  (let '(y, m, d) := q in 0 <= y <= 9999 /\ 0 <= m <= 99 /\ 0 <= d <= 99) ->
  iso_date p = iso_date q -> p = q.
Proof.
  destruct p as [[y m] d], q as [[y' m'] d'].
  intros (Hy & Hm & Hd) (Hy' & Hm' & Hd') H.
  unfold iso_date, PyDate.pad4, PyDate.pad2 in H. cbn [append] in H.
  injection H as Y3 Y2 Y1 Y0 M1 M0 D1 D0.
  apply digit_inj in Y3, Y2, Y1, Y0, M1, M0, D1, D0.
  assert (y = y') by solve_div.
  assert (m = m') by solve_div.
  assert (d = d') by solve_div.
  congruence.
Qed.

Lemma valid_date_two_digits (y m d : Z) :
  valid_date (y, m, d) -> 0 <= m <= 99 /\ 0 <= d <= 99.
Proof.
  intros (Hy & Hm & Hd). rewrite days_in_month_length in Hd.
  pose proof (month_offset_year _ _ _ Hm Hd).
  pose proof (month_offset_next (PyDate.is_leap y) m Hm).
  split; [lia |].
  revert Hd. each_month m; destruct (PyDate.is_leap y); calc_months; lia.
Qed.

Section Dates.

Variable zs : nat -> Q.
Variable n_rows : Z.
Variables start_price volatility trend : Q.
Variable s : nat.
Variable data : list bar.
Variable s' : nat.
Hypothesis run :
  generate_ohlcv zs n_rows start_price volatility trend s = Ok (data, s').

(** The ordinal behind the date of a produced bar is in range. *)
Lemma produced_date i b :
  nth_error data i = Some b ->
  Date b = iso_date (PyDate.ord2ymd (start_date + Z.of_nat i))
  /\ start_date <= start_date + Z.of_nat i <= PyDate.MAXORDINAL.
Proof.
  intros N.
  destruct (produced_nth _ _ _ _ _ _ _ _ _ _ run N) as (L & ->).
  destruct (generate_inv _ _ _ _ _ _ _ _ run) as (R & _ & _).
  split; [apply strftime_iso |].
  unfold MAX_ROWS, PyDate.MAXORDINAL in *. change start_date with 737425. lia.
Qed.

Lemma produced_date_fields i b :
  nth_error data i = Some b ->
  let '(y, m, d) := PyDate.ord2ymd (start_date + Z.of_nat i) in
  valid_date (y, m, d) /\ 2020 <= y <= 9999 /\ 0 <= m <= 99 /\ 0 <= d <= 99.
Proof.
  intros N. destruct (produced_date i b N) as [_ R].
  pose proof (ord2ymd_year_range _ R) as Y.
  destruct (ord2ymd_correct (start_date + Z.of_nat i)) as [V _];
    [change start_date with 737425; lia |].
  destruct (PyDate.ord2ymd (start_date + Z.of_nat i)) as [[y m] d].
  pose proof (valid_date_two_digits _ _ _ V). tauto.
Qed.

End Dates.

(** X9: the [Date] of bar [i] is the text [YYYY-MM-DD] of a date of the
    Gregorian calendar: a year from 2020 to 9999, a month from 1 to 12 and a
    day that exists in that month; and that date is the one [i] days after
    2020-01-01. *)
Theorem bar_dates_are_calendar_dates
  zs n_rows start_price volatility trend s data s' :
  generate_ohlcv zs n_rows start_price volatility trend s = Ok (data, s') ->
  forall i b, nth_error data i = Some b ->
    exists y m d,
      Date b = iso_date (y, m, d)
      /\ 2020 <= y <= 9999 /\ 1 <= m <= 12 /\ 1 <= d <= days_in_month y m
      /\ PyDate.ymd2ord y m d = PyDate.ymd2ord 2020 1 1 + Z.of_nat i.
Proof.
  intros G i b N.
  destruct (produced_date _ _ _ _ _ _ _ _ G i b N) as [D R].
  pose proof (produced_date_fields _ _ _ _ _ _ _ _ G i b N) as F.
  destruct (ord2ymd_correct (start_date + Z.of_nat i)) as [_ E];
    [change start_date with 737425; lia |].
  destruct (PyDate.ord2ymd (start_date + Z.of_nat i)) as [[y m] d].
  destruct F as ((_ & Hm & Hd) & Hy & _).
  exists y, m, d. repeat split; try assumption; try lia.
Qed.

Lemma bar_dates_are_calendar_dates_witness :
  exists data s' b,
    generate_ohlcv zs_zero 60 100 0 0 0%nat = Ok (data, s')
    /\ nth_error data 59 = Some b
    /\ Date b = "2020-02-29"%string
    /\ exists y m d,
         Date b = iso_date (y, m, d)
         /\ 2020 <= y <= 9999 /\ 1 <= m <= 12 /\ 1 <= d <= days_in_month y m
         /\ PyDate.ymd2ord y m d = PyDate.ymd2ord 2020 1 1 + Z.of_nat 59.
Proof.
  exists (map (bar_at zs_zero 100 0 0 0) (seq 0 60)), 240%nat.
  eexists. split; [apply generate_in_range; unfold MAX_ROWS; lia |].
  split; [reflexivity |]. split; [reflexivity |].
  apply (bar_dates_are_calendar_dates zs_zero 60 100 0 0 0%nat
           (map (bar_at zs_zero 100 0 0 0) (seq 0 60)) 240%nat).
  - apply generate_in_range. unfold MAX_ROWS. lia.
  - reflexivity.
Defined.

(** X10: consecutive bars are dated consecutive calendar days.  The date of
    bar [i + 1] is the day after the date of bar [i]: the next day of the
    month, or the first of the next month after the month's last day, or
    January 1 of the next year after December 31. *)
Theorem consecutive_bars_consecutive_days
  zs n_rows start_price volatility trend s data s' :
  generate_ohlcv zs n_rows start_price volatility trend s = Ok (data, s') ->
  forall i b b', nth_error data i = Some b -> nth_error data (S i) = Some b' ->
    exists date,
      valid_date date
      /\ Date b = iso_date date
      /\ Date b' = iso_date (next_day date).
Proof.
  intros G i b b' N N'.
  destruct (produced_date _ _ _ _ _ _ _ _ G i b N) as [D R].
  destruct (produced_date _ _ _ _ _ _ _ _ G (S i) b' N') as [D' R'].
  exists (PyDate.ord2ymd (start_date + Z.of_nat i)).
  split; [apply ord2ymd_correct; change start_date with 737425; lia |].
  split; [exact D |].
  rewrite D', Nat2Z.inj_succ. unfold Z.succ. rewrite Z.add_assoc.
  rewrite ord2ymd_succ by (change start_date with 737425; lia).
  reflexivity.
Qed.

Lemma consecutive_bars_consecutive_days_witness :
  exists data s' b b',
    generate_ohlcv zs_zero 61 100 0 0 0%nat = Ok (data, s')
    /\ nth_error data 59 = Some b /\ nth_error data 60 = Some b'
    /\ Date b = "2020-02-29"%string /\ Date b' = "2020-03-01"%string
    /\ exists date,
         valid_date date
         /\ Date b = iso_date date
         /\ Date b' = iso_date (next_day date).
Proof.
  exists (map (bar_at zs_zero 100 0 0 0) (seq 0 61)), 244%nat.
  do 2 eexists. split; [apply generate_in_range; unfold MAX_ROWS; lia |].
  split; [reflexivity |]. split; [reflexivity |].
  split; [reflexivity |]. split; [reflexivity |].
  apply (consecutive_bars_consecutive_days zs_zero 61 100 0 0 0%nat
           (map (bar_at zs_zero 100 0 0 0) (seq 0 61)) 244%nat
           (generate_in_range zs_zero 61 100 0 0 0%nat
              ltac:(unfold MAX_ROWS; lia)) 59%nat);
    reflexivity.
Defined.

(** A text denotes at most one date. *)
Lemma denotes_unique (text : string) (p q : Z * Z * Z) :
  denotes text p -> denotes text q -> p = q.
Proof.
  intros (Vp & Yp & Tp) (Vq & Yq & Tq).
  destruct p as [[y m] d], q as [[y' m'] d'].
  pose proof (valid_date_two_digits _ _ _ Vp).
  pose proof (valid_date_two_digits _ _ _ Vq).
  destruct Vp as (Hy & _), Vq as (Hy' & _).
  apply iso_date_inj; [lia | lia | congruence].
Qed.

(** X11: dates strictly increase along the bars, and no date occurs twice
    in the [Date] column.  For bars [i < j] the two texts are those of real
    calendar dates with four-digit years, which they determine, and the date
    of bar [i] is the earlier one. *)
Theorem dates_strictly_increase
  zs n_rows start_price volatility trend s data s' :
  generate_ohlcv zs n_rows start_price volatility trend s = Ok (data, s') ->
  NoDup (map Date data)
  /\ forall i j b b', (i < j)%nat ->
       nth_error data i = Some b -> nth_error data j = Some b' ->
       (exists date date',
          denotes (Date b) date /\ denotes (Date b') date'
          /\ date_lt date date')
       /\ (forall date date',
             denotes (Date b) date -> denotes (Date b') date' ->
             date_lt date date').
Proof.
  intros G.
  assert (Den : forall i b, nth_error data i = Some b ->
            denotes (Date b) (PyDate.ord2ymd (start_date + Z.of_nat i))).
  { intros i b N.
    destruct (produced_date _ _ _ _ _ _ _ _ G i b N) as [D _].
    pose proof (produced_date_fields _ _ _ _ _ _ _ _ G i b N) as F.
    unfold denotes. rewrite D.
    destruct (PyDate.ord2ymd (start_date + Z.of_nat i)) as [[y m] d].
    split; [tauto |]. split; [lia | reflexivity]. }
  assert (Inc : forall i j, (i < j)%nat ->
            date_lt (PyDate.ord2ymd (start_date + Z.of_nat i))
                    (PyDate.ord2ymd (start_date + Z.of_nat j))).
  { intros i j L.
    apply ord2ymd_lt; [change start_date with 737425 |]; lia. }
  assert (Ne : forall i j b b', (i < j)%nat ->
            nth_error data i = Some b -> nth_error data j = Some b' ->
            Date b <> Date b').
  { intros i j b b' L N N' E.
    pose proof (Den i b N) as Di. pose proof (Den j b' N') as Dj.
    rewrite E in Di.
    pose proof (denotes_unique _ _ _ Di Dj) as U.
    pose proof (Inc i j L) as Lt. rewrite U in Lt.
    destruct (PyDate.ord2ymd (start_date + Z.of_nat j)) as [[y m] d].
    unfold date_lt in Lt. lia. }
  split.
  - apply NoDup_nth_error. intros i j Hi E.
    rewrite length_map in Hi.
    rewrite !nth_error_map in E.
    destruct (nth_error data i) as [b |] eqn:N;
      [| apply nth_error_None in N; lia].
    destruct (nth_error data j) as [b' |] eqn:N'; [| discriminate].
    cbn in E. injection E as E.
    destruct (Nat.lt_trichotomy i j) as [L | [L | L]]; [| exact L |].
    + exfalso. exact (Ne i j b b' L N N' E).
    + exfalso. exact (Ne j i b' b L N' N (eq_sym E)).
  - intros i j b b' L N N'. split.
    + do 2 eexists. split; [exact (Den i b N) |].
      split; [exact (Den j b' N') | exact (Inc i j L)].
    + intros date date' Di Dj.
      rewrite (denotes_unique _ _ _ Di (Den i b N)).
      rewrite (denotes_unique _ _ _ Dj (Den j b' N')).
      exact (Inc i j L).
Qed.

Lemma dates_strictly_increase_witness :
  exists data s',
    generate_ohlcv zs_zero 400 100 0 0 0%nat = Ok (data, s')
    /\ List.length data = 400%nat
    /\ NoDup (map Date data)
    /\ forall i j b b', (i < j)%nat ->
         nth_error data i = Some b -> nth_error data j = Some b' ->
         (exists date date',
            denotes (Date b) date /\ denotes (Date b') date'
            /\ date_lt date date')
         /\ (forall date date',
               denotes (Date b) date -> denotes (Date b') date' ->
               date_lt date date').
Proof.
  exists (map (bar_at zs_zero 100 0 0 0) (seq 0 400)), 1600%nat.
  split; [apply generate_in_range; unfold MAX_ROWS; lia |].
  split; [rewrite length_map, length_seq; reflexivity |].
  apply (dates_strictly_increase zs_zero 400 100 0 0 0%nat _ 1600%nat).
  apply generate_in_range. unfold MAX_ROWS. lia.
Defined.

Lemma digit_compare (x y : Z) :
  Ascii.compare (PyDate.digit x) (PyDate.digit y) = (x mod 10 ?= y mod 10).
Proof.
  unfold Ascii.compare, PyDate.digit, ascii_of_nat.
  pose proof (Z.mod_pos_bound x 10 ltac:(lia)).
  pose proof (Z.mod_pos_bound y 10 ltac:(lia)).
  rewrite !N_ascii_embedding by lia.
  rewrite <- N2Z.inj_compare.
  rewrite !nat_N_Z, !Nat2Z.inj_add, !Z2Nat.id by lia.
  apply Z.add_compare_mono_l.
Qed.

(** The text of dates with four-digit years sorts chronologically. *)
Lemma iso_date_compare (p q : Z * Z * Z) :
  (let '(y, m, d) := p in 0 <= y <= 9999 /\ 0 <= m <= 99 /\ 0 <= d <= 99) ->
  (let '(y, m, d) := q in 0 <= y <= 9999 /\ 0 <= m <= 99 /\ 0 <= d <= 99) ->
  date_lt p q -> String.compare (iso_date p) (iso_date q) = Lt.
Proof.
  destruct p as [[y m] d], q as [[y' m'] d'].
  intros (Hy & Hm & Hd) (Hy' & Hm' & Hd') L. unfold date_lt in L.
  unfold iso_date, PyDate.pad4, PyDate.pad2. cbn [append String.compare].
  rewrite !digit_compare.
  change (Ascii.compare "-" "-") with Eq. cbv iota.
  repeat match goal with
         | |- context [?a ?= ?b] =>
             destruct (Z.compare_spec a b); [| reflexivity | exfalso; solve_div]
         end.
  exfalso. solve_div.
Qed.

(** X12: the [Date] column sorts chronologically as text: the date text of
    an earlier bar is strictly below that of a later bar in the
    character-by-character order of strings. *)
Theorem date_column_sorts_as_text
  zs n_rows start_price volatility trend s data s' :
  generate_ohlcv zs n_rows start_price volatility trend s = Ok (data, s') ->
  forall i j b b', (i < j)%nat ->
    nth_error data i = Some b -> nth_error data j = Some b' ->
    String.compare (Date b) (Date b') = Lt /\ String.ltb (Date b) (Date b') = true.
Proof.
  intros G i j b b' L N N'.
  destruct (produced_date _ _ _ _ _ _ _ _ G i b N) as [D _].
  destruct (produced_date _ _ _ _ _ _ _ _ G j b' N') as [D' _].
  pose proof (produced_date_fields _ _ _ _ _ _ _ _ G i b N) as F.
  pose proof (produced_date_fields _ _ _ _ _ _ _ _ G j b' N') as F'.
  assert (Lt' : date_lt (PyDate.ord2ymd (start_date + Z.of_nat i))
                        (PyDate.ord2ymd (start_date + Z.of_nat j)))
    by (apply ord2ymd_lt; [change start_date with 737425 |]; lia).
  assert (C : String.compare (Date b) (Date b') = Lt).
  { rewrite D, D'.
    destruct (PyDate.ord2ymd (start_date + Z.of_nat i)) as [[y m] d].
    destruct (PyDate.ord2ymd (start_date + Z.of_nat j)) as [[y' m'] d'].
    apply iso_date_compare; [lia | lia | exact Lt']. }
  split; [exact C |]. unfold String.ltb. rewrite C. reflexivity.
Qed.

Lemma date_column_sorts_as_text_witness :
  exists data s' b b',
    generate_ohlcv zs_zero 400 100 0 0 0%nat = Ok (data, s')
    /\ nth_error data 30 = Some b /\ nth_error data 366 = Some b'
    /\ Date b = "2020-01-31"%string /\ Date b' = "2021-01-01"%string
    /\ String.compare (Date b) (Date b') = Lt
    /\ String.ltb (Date b) (Date b') = true.
Proof.
  exists (map (bar_at zs_zero 100 0 0 0) (seq 0 400)), 1600%nat.
  do 2 eexists. split; [apply generate_in_range; unfold MAX_ROWS; lia |].
  split; [reflexivity |]. split; [reflexivity |].
  split; [reflexivity |]. split; [reflexivity |].
  apply (date_column_sorts_as_text zs_zero 400 100 0 0 0%nat
           (map (bar_at zs_zero 100 0 0 0) (seq 0 400)) 1600%nat
           (generate_in_range zs_zero 400 100 0 0 0%nat
              ltac:(unfold MAX_ROWS; lia)) 30%nat 366%nat);
    [lia | reflexivity | reflexivity].
Defined.

(** * Writing the file *)

Lemma is_fieldname_iff (key : string) :
  is_fieldname key = true <-> In key fieldnames.
Proof.
  unfold is_fieldname. rewrite existsb_exists. split.
  - intros (x & I & E). apply String.eqb_eq in E. subst. exact I.
  - intros I. exists key. split; [exact I | apply String.eqb_refl].
Qed.

Lemma has_wrong_fields_false (d : pydict) :
  has_wrong_fields d = false <-> known_keys d.
Proof.
  unfold has_wrong_fields, known_keys. split.
  - intros E key I. apply is_fieldname_iff.
    destruct (is_fieldname key) eqn:F; [reflexivity | exfalso].
    assert (W : existsb (fun k => negb (is_fieldname k)) (map fst d) = true)
      by (apply existsb_exists; exists key; rewrite F; auto).
    congruence.
  - intros K.
    destruct (existsb (fun k => negb (is_fieldname k)) (map fst d)) eqn:E;
      [exfalso | reflexivity].
    apply existsb_exists in E. destruct E as (k & I & N).
    apply K, is_fieldname_iff in I. rewrite I in N. discriminate.
Qed.

Lemma dict_to_list_known (d : pydict) :
  known_keys d -> dict_to_list d = Some (map (cell_of d) fieldnames).
Proof.
  intros K. unfold dict_to_list. apply has_wrong_fields_false in K. rewrite K.
  reflexivity.
Qed.

Lemma dict_to_list_unknown (d : pydict) :
  ~ known_keys d -> dict_to_list d = None.
Proof.
  intros K. unfold dict_to_list.
  destruct (has_wrong_fields d) eqn:E; [reflexivity |].
  exfalso. apply K, has_wrong_fields_false, E.
Qed.


Lemma writerows_known (good rest : list pydict) (content : list (list value)) :
  Forall known_keys good ->
  writerows (good ++ rest) content
  = writerows rest (content ++ map (fun d => map (cell_of d) fieldnames) good).
Proof.
  intros G. revert content. induction G as [| d good K G IH]; intros content.
  - cbn. rewrite app_nil_r. reflexivity.
  - cbn [app writerows map]. rewrite (dict_to_list_known d K), IH.
    rewrite <- app_assoc. reflexivity.
Qed.




(** X14: when the file opens and stores what is written, a dict with a key
    that is not a column stops [write_csv] part way: the header and the rows
    of the dicts before it are in the file, nothing after it is written,
    [ValueError] is raised and nothing is printed. *)
Theorem write_csv_stops_at_unknown_key
  (fs : file_system) (good : list pydict) (bad : pydict) (rest : list pydict)
  (filename : string) :
  opens fs filename = true -> stores fs filename = true ->
  Forall known_keys good ->
  (exists key, In key (map fst bad) /\ ~ In key fieldnames) ->
  write_csv fs (good ++ bad :: rest) filename
  = {| file :=
         Rows (map VStr fieldnames
               :: map (fun d => map (cell_of d) fieldnames) good);
       printed := [];
       raised := Some ValueError |}.
Proof.
  intros O S G (key & I & N).
  assert (B : ~ known_keys bad) by (intros K; apply N, K, I).
  unfold write_csv. rewrite O, S. cbn [negb].
  rewrite (writerows_known good (bad :: rest) _ G).
  cbn [writerows]. rewrite (dict_to_list_unknown bad B). reflexivity.
Qed.

Lemma write_csv_stops_at_unknown_key_witness :
  write_csv fs_good
    [ [("Date", VStr "2020-01-01"); ("Volume", VInt 5)];
      [("Date", VStr "2020-01-02"); ("Price", VFloat 1)];
      [("Date", VStr "2020-01-03")] ]%string "out.csv"
  = {| file :=
         Rows [ map VStr fieldnames;
                [ VStr "2020-01-01"; VStr ""; VStr ""; VStr ""; VStr "";
                  VStr ""; VInt 5 ] ]%string;
       printed := [];
       raised := Some ValueError |}.
Proof.
  apply (write_csv_stops_at_unknown_key fs_good
           [ [("Date", VStr "2020-01-01"); ("Volume", VInt 5)] ]%string
           [("Date", VStr "2020-01-02"); ("Price", VFloat 1)]%string
           [ [("Date", VStr "2020-01-03")] ]%string "out.csv").
  - reflexivity.
  - reflexivity.
  - constructor; [| constructor]. intros key [<- | [<- | []]]; vm_compute; tauto.
  - exists "Price"%string. split; [right; left; reflexivity |].
    intros I. apply is_fieldname_iff in I. discriminate.
Defined.

(** * The script *)

Lemma writerows_of_bars (bars : list bar) (content : list (list value)) :
  writerows (map to_dict bars) content
  = ((content ++ map row_of_bar bars)%list, None).
Proof.
  revert content. induction bars as [| b bars IH]; intros content.
  - cbn. rewrite app_nil_r. reflexivity.
  - cbn [map writerows].
    change (dict_to_list (to_dict b)) with (Some (row_of_bar b)).
    cbv beta iota. rewrite IH, <- app_assoc. reflexivity.
Qed.

Lemma write_csv_of_bars (fs : file_system) (bars : list bar) (filename : string) :
  opens fs filename = true -> stores fs filename = true ->
  write_csv fs (map to_dict bars) filename
  = {| file := Rows (map VStr fieldnames :: map row_of_bar bars);
       printed := [ ("Generated " ++ str_of_nat (List.length bars)
                     ++ " rows -> " ++ filename)%string ];
       raised := None |}.
Proof.
  intros O S. unfold write_csv. rewrite O, S. cbn [negb].
  rewrite writerows_of_bars, length_map. reflexivity.
Qed.

(** X15: what the script does, by row count and file.  For a row count above
    2914635 the generator's [OverflowError] ends the script before
    [write_csv] is called, whatever the file system.  For a row count up to
    2914635: if the output file opens and stores what is written, the script
    writes the header and one row per generated bar, in order, with the
    bar's date, open, high, low, close, adjusted close and volume in that
    column order, and prints the row count; if the file does not open,
    [OSError] is raised after all bars were generated, the file is untouched
    and nothing is printed. *)
Theorem script_outcomes (fs : file_system) zs (args : cli_args) (s : nat) :
  (MAX_ROWS < rows args -> script fs zs args s = Crashed OverflowError)
  /\ (rows args <= MAX_ROWS ->
      exists data s',
        generate_ohlcv zs (rows args) (arg_start_price args)
          (arg_volatility args) (arg_trend args) s = Ok (data, s')
        /\ List.length data = Z.to_nat (rows args)
        /\ (opens fs (output args) = true -> stores fs (output args) = true ->
            script fs zs args s
            = Called
                {| file := Rows (map VStr fieldnames :: map row_of_bar data);
                   printed :=
                     [ ("Generated " ++ str_of_nat (Z.to_nat (rows args))
                        ++ " rows -> " ++ output args)%string ];
                   raised := None |})
        /\ (opens fs (output args) = false ->
            script fs zs args s
            = Called {| file := Untouched; printed := [];
                        raised := Some OSError |})).
Proof.
  split; intros H.
  - unfold script. rewrite generate_overflow by exact H. reflexivity.
  - do 2 eexists. split; [apply generate_in_range, H |].
    split; [rewrite length_map, length_seq; reflexivity |].
    split.
    + intros O S. unfold script. rewrite generate_in_range by exact H.
      rewrite write_csv_of_bars by assumption.
      rewrite length_map, length_seq. reflexivity.
    + intros O. unfold script. rewrite generate_in_range by exact H.
      unfold write_csv. rewrite O. reflexivity.
Qed.

(** The run with the default arguments where [../data] does not exist:
    all 10000 bars are generated, then [open] fails. *)
Example default_run_without_data_dir zs s :
  script fs_no_data_dir zs default_args s
  = Called {| file := Untouched; printed := []; raised := Some OSError |}.
Proof.
  unfold script.
  cbn [rows arg_start_price arg_volatility arg_trend output default_args].
  rewrite generate_in_range by (unfold MAX_ROWS; lia).
  unfold write_csv.
  change (opens fs_no_data_dir "../data/synthetic.csv") with false.
  reflexivity.
Qed.

Lemma script_outcomes_witness :
  script fs_good zs_zero
    {| rows := 3000000; output := "out.csv"; arg_start_price := 100.0;
       arg_volatility := 0.02; arg_trend := 0.0001 |} 0%nat
  = Crashed OverflowError
  /\ script fs_no_data_dir zs_zero
       {| rows := 2; output := "../data/synthetic.csv";
          arg_start_price := 100.0; arg_volatility := 0.02;
          arg_trend := 0.0001 |} 0%nat
     = Called {| file := Untouched; printed := []; raised := Some OSError |}
  /\ exists data,
       List.length data = 2%nat
       /\ script fs_good zs_zero
            {| rows := 2; output := "out.csv"; arg_start_price := 100.0;
               arg_volatility := 0.02; arg_trend := 0.0001 |} 0%nat
          = Called
              {| file := Rows (map VStr fieldnames :: map row_of_bar data);
                 printed := [ "Generated 2 rows -> out.csv"%string ];
                 raised := None |}.
Proof.
  split; [| split].
  - apply (script_outcomes fs_good zs_zero
             {| rows := 3000000; output := "out.csv"; arg_start_price := 100.0;
                arg_volatility := 0.02; arg_trend := 0.0001 |} 0%nat).
    unfold MAX_ROWS. cbn. lia.
  - destruct (script_outcomes fs_no_data_dir zs_zero
                {| rows := 2; output := "../data/synthetic.csv";
                   arg_start_price := 100.0; arg_volatility := 0.02;
                   arg_trend := 0.0001 |} 0%nat) as [_ R].
    destruct R as (data & s' & _ & _ & _ & F); [unfold MAX_ROWS; cbn; lia |].
    apply F. reflexivity.
  - destruct (script_outcomes fs_good zs_zero
                {| rows := 2; output := "out.csv"; arg_start_price := 100.0;
                   arg_volatility := 0.02; arg_trend := 0.0001 |} 0%nat)
      as [_ R].
    destruct R as (data & s' & _ & L & W & _); [unfold MAX_ROWS; cbn; lia |].
    exists data. split; [exact L |]. apply W; reflexivity.
Defined.
